(** * pencil-chess: a shallow embedding of the cross-frame synchronisation
    code (game host, embedded board, online game, storage service). *)

From Stdlib Require Import String List Bool Arith Lia.
Import ListNotations.
Open Scope string_scope.
Open Scope list_scope.

(** ** types/messages.ts *)

Inductive Role := white | black.
Inductive Turn := w | b.

Definition role_eqb (r1 r2 : Role) : bool :=
  match r1, r2 with
  | white, white | black, black => true
  | _, _ => false
  end.

Definition turn_eqb (t1 t2 : Turn) : bool :=
  match t1, t2 with
  | w, w | b, b => true
  | _, _ => false
  end.

(** [winner.toUpperCase()] *)
Definition role_upper (r : Role) : string :=
  match r with white => "WHITE" | black => "BLACK" end.

Inductive WireMessage :=
| IFRAME_READY
| ROLE_ASSIGN (role : Role)
| REQUEST_SYNC
| SYNC_STATE (fen : string) (pgn : option string)
| BOARD_UPDATE (fen : string)
| TURN (turn : Turn)
| RESET
| GAME_OVER (winner : Role) (reason : string).

(** ** The rules engine (chess.js), used through this interface only.
    [load] validates the FEN before touching the position, so a rejected
    FEN throws with the instance unchanged: a failing load is [None]. *)

Class Engine := {
  Pos : Type;
  new_chess : Pos;                  (* new Chess() *)
  load : string -> option Pos;      (* chess.load(fen) *)
  turn : Pos -> Turn;               (* chess.turn() *)
  isCheckmate : Pos -> bool;        (* chess.isCheckmate() *)
  fen_of : Pos -> string;           (* chess.fen() *)
  pgn_of : Pos -> string            (* chess.pgn() *)
}.

(** A window reference (an iframe's contentWindow), compared by identity. *)
Definition Win := nat.

(** A [MessageEvent]: [data] is [None] when it is not an object with a
    [type] field. *)
Record MsgEvent := {
  ev_origin : string;
  ev_source : option Win;
  ev_data : option WireMessage
}.

(** ** features/game-host/game-host.component.ts *)
Module Host.

Inductive Effect :=
| PostTo (target : Win) (msg : WireMessage)   (* target.postMessage *)
| Save (fen : string)                          (* storage.save({fen}) *)
| Clear.                                       (* storage.clear() *)

Section WithEngine.
Context `{E : Engine}.

Record Host := {
  chess : Pos;
  currentTurnText : string;
  overlayVisible : bool;
  overlayText : string;
  origin : string;
  window1 : option Win;
  window2 : option Win
}.

Definition set_chess (h : Host) (p : Pos) : Host :=
  {| chess := p; currentTurnText := currentTurnText h;
     overlayVisible := overlayVisible h; overlayText := overlayText h;
     origin := origin h; window1 := window1 h; window2 := window2 h |}.

Definition set_turn_text (h : Host) (s : string) : Host :=
  {| chess := chess h; currentTurnText := s;
     overlayVisible := overlayVisible h; overlayText := overlayText h;
     origin := origin h; window1 := window1 h; window2 := window2 h |}.

Definition set_overlay (h : Host) (vis : bool) (txt : string) : Host :=
  {| chess := chess h; currentTurnText := currentTurnText h;
     overlayVisible := vis; overlayText := txt;
     origin := origin h; window1 := window1 h; window2 := window2 h |}.

Definition win_eqb (a : Win) (o : option Win) : bool :=
  match o with Some x => Nat.eqb a x | None => false end.

Definition otherWindow (h : Host) (src : Win) : option Win :=
  if win_eqb src (window1 h) then window2 h else window1 h.

Definition currentTurnWindow (h : Host) : option Win :=
  match turn (chess h) with w => window1 h | b => window2 h end.

Definition postTo (target : option Win) (msg : WireMessage) : list Effect :=
  match target with Some t => [PostTo t msg] | None => [] end.

Definition postToBoth (h : Host) (msg : WireMessage) : list Effect :=
  postTo (window1 h) msg ++ postTo (window2 h) msg.

Definition syncStateTo (h : Host) (target : Win) : list Effect :=
  postTo (Some target) (SYNC_STATE (fen_of (chess h)) None).

Definition broadcastTurn (h : Host) : Host * list Effect :=
  let t := turn (chess h) in
  (set_turn_text h (match t with w => "White to move" | b => "Black to move" end),
   postToBoth h (TURN t)).

Definition onMessage (h : Host) (ev : MsgEvent) : Host * list Effect :=
  if negb (String.eqb (ev_origin ev) (origin h)) then (h, []) else
  match ev_source ev with
  | None => (h, [])
  | Some srcWin =>
    match ev_data ev with
    | None => (h, [])
    | Some IFRAME_READY =>
        let role := if win_eqb srcWin (window1 h) then white else black in
        let e1 := postTo (Some srcWin) (ROLE_ASSIGN role) in
        let e2 := syncStateTo h srcWin in
        let '(h', e3) := broadcastTurn h in
        (h', e1 ++ e2 ++ e3)
    | Some REQUEST_SYNC =>
        let e1 := syncStateTo h srcWin in
        let '(h', e2) := broadcastTurn h in
        (h', e1 ++ e2)
    | Some (BOARD_UPDATE fen) =>
        let isFromCurrentTurn := win_eqb srcWin (currentTurnWindow h) in
        if negb isFromCurrentTurn then (h, []) else
        match load fen with
        | None => (h, [])
        | Some p =>
            let h1 := set_chess h p in
            let e1 := [Save fen] in
            if isCheckmate p then
              let winner := match turn p with w => black | b => white end in
              let e2 := postToBoth h1 (GAME_OVER winner "checkmate") in
              (set_overlay h1 true (String.append (role_upper winner) " wins by checkmate"),
               e1 ++ e2)
            else
              let e2 := postTo (otherWindow h1 srcWin) (SYNC_STATE fen None) in
              let '(h2, e3) := broadcastTurn h1 in
              (h2, e1 ++ e2 ++ e3)
        end
    | Some _ => (h, [])
    end
  end.


(** Reset to a fresh game and notify both boards *)
Definition newGame (h : Host) : Host * list Effect :=
  let h1 := set_overlay (set_chess h new_chess) false "" in
  let fen := fen_of (chess h1) in
  let e1 := [Clear] in
  let e2 := postToBoth h1 RESET in
  let e3 := postToBoth h1 (SYNC_STATE fen None) in
  let '(h2, e4) := broadcastTurn h1 in
  (h2, e1 ++ e2 ++ e3 ++ e4).

(** Open confirmation overlay *)
Definition openOverlay (h : Host) : Host :=
  set_overlay h true "Do you want to reset the game?".


End WithEngine.
End Host.

(** ** The board widget (ngx-chess-board's NgxChessBoardView).
    [reverse] toggles the orientation; [setFEN] and [reset] reload the
    pieces and, as the components' comments note, leave the board in its
    default (white at the bottom) orientation.  Every call is logged with
    the value of the calling component's [applyingRemote] guard. *)
Module Board.

Inductive Call := CReverse | CSetFEN (fen : string) | CReset.

Record Board := {
  bfen : string;
  breversed : bool;
  blog : list (Call * bool)
}.

Definition START_FEN : string :=
  "rnbqkbnr/pppppppp/8/8/8/8/PPPPPPPP/RNBQKBNR w KQkq - 0 1".

Definition reverse (g : bool) (bd : Board) : Board :=
  {| bfen := bfen bd; breversed := negb (breversed bd);
     blog := blog bd ++ [(CReverse, g)] |}.

Definition setFEN (g : bool) (fen : string) (bd : Board) : Board :=
  {| bfen := fen; breversed := false; blog := blog bd ++ [(CSetFEN fen, g)] |}.

Definition reset (g : bool) (bd : Board) : Board :=
  {| bfen := START_FEN; breversed := false; blog := blog bd ++ [(CReset, g)] |}.

Definition getFEN (bd : Board) : string := bfen bd.

Definition is_reverse (c : Call * bool) : bool :=
  match fst c with CReverse => true | _ => false end.

(** Number of [reverse()] calls made so far. *)
Definition flips (bd : Board) : nat := length (filter is_reverse (blog bd)).

Definition fresh : Board := {| bfen := START_FEN; breversed := false; blog := [] |}.

End Board.

(** ** features/board-embed/board-embed.component.ts *)
Module Embed.

Record Embed := {
  role : option Role;
  moveDisabled : bool;
  applyingRemote : bool;
  isReversed : bool;
  board : Board.Board;
  origin : string              (* window.location.origin *)
}.

Definition mk r md ar ir bd o : Embed :=
  {| role := r; moveDisabled := md; applyingRemote := ar; isReversed := ir;
     board := bd; origin := o |}.

Definition init (o : string) : Embed := mk None true false false Board.fresh o.

Definition set_role e r := mk (Some r) (moveDisabled e) (applyingRemote e) (isReversed e) (board e) (origin e).
Definition set_moveDisabled e v := mk (role e) v (applyingRemote e) (isReversed e) (board e) (origin e).
Definition set_applyingRemote e v := mk (role e) (moveDisabled e) v (isReversed e) (board e) (origin e).
Definition set_isReversed e v := mk (role e) (moveDisabled e) (applyingRemote e) v (board e) (origin e).
Definition set_board e bd := mk (role e) (moveDisabled e) (applyingRemote e) (isReversed e) bd (origin e).

Definition is_black (r : option Role) : bool :=
  match r with Some black => true | _ => false end.

(** Rotate board exactly once if I'm black; no-op for white *)
Definition ensureOrientation (e : Embed) : Embed :=
  let shouldBeReversed := is_black (role e) in
  if negb (Bool.eqb shouldBeReversed (isReversed e)) then
    set_isReversed (set_board e (Board.reverse (applyingRemote e) (board e))) shouldBeReversed
  else e.

Definition darkDisabled (e : Embed) : bool :=
  match role e with Some white => true | _ => false end || moveDisabled e || applyingRemote e.
Definition lightDisabled (e : Embed) : bool :=
  is_black (role e) || moveDisabled e || applyingRemote e.

Definition onMessage (e : Embed) (ev : MsgEvent) : Embed :=
  if negb (String.eqb (ev_origin ev) (origin e)) then e else
  match ev_data ev with
  | None => e
  | Some (ROLE_ASSIGN r) => ensureOrientation (set_role e r)
  | Some (SYNC_STATE fen _) =>
      let e1 := set_applyingRemote e true in
      let e2 := set_board e1 (Board.setFEN (applyingRemote e1) fen (board e1)) in
      let e3 := ensureOrientation (set_isReversed e2 false) in
      set_applyingRemote e3 false
  | Some (TURN t) =>
      match role e with
      | None => e
      | Some r =>
          let isMyTurn := (role_eqb r white && turn_eqb t w)
                          || (role_eqb r black && turn_eqb t b) in
          set_moveDisabled e (negb isMyTurn)
      end
  | Some RESET =>
      let e1 := set_applyingRemote e true in
      let e2 := set_board e1 (Board.reset (applyingRemote e1) (board e1)) in
      let e3 := set_applyingRemote e2 false in
      let e4 := ensureOrientation (set_isReversed e3 false) in
      set_moveDisabled e4 (negb (match role e4 with Some white => true | _ => false end))
  | Some (GAME_OVER _ _) => set_moveDisabled e true
  | Some _ => e
  end.

(** A local drag finished: the message posted to the parent, if any. *)
Definition onUserMove (e : Embed) : option WireMessage :=
  if applyingRemote e then None else Some (BOARD_UPDATE (Board.getFEN (board e))).

End Embed.

(** ** features/online-game/online-game.component.ts *)
Module Online.

Inductive Status := waiting | live | ended.

(** [PlayersDoc]: a slot holds the occupant's id, [None] for null/absent. *)
Record PlayersDoc := { pwhite : option string; pblack : option string }.

Definition no_players : PlayersDoc := {| pwhite := None; pblack := None |}.

Record GameDoc := {
  d_fen : string;
  d_pgn : option string;
  d_turn : Turn;
  d_status : option Status;
  d_winner : option Role;
  d_players : option PlayersDoc
}.

(** The object passed to [update(ref, ...)]: only the present fields are written. *)
Record Patch := {
  p_fen : option string;
  p_pgn : option string;
  p_turn : option Turn;
  p_status : option Status;
  p_winner : option Role;
  p_players : option PlayersDoc
}.

Record OnlineLocalState := { l_code : string; l_role : Role; l_clientId : string }.

(** Remote database and persistence operations, in the order issued. *)
Inductive Op :=
| RGet (path : string)
| RSet (path : string) (doc : GameDoc)
| RUpdate (path : string) (patch : Patch)
| Subscribe (path : string)
| LSave (st : OnlineLocalState)
| LClear.

(** [!!slot?.id] *)
Definition taken (slot : option string) : bool :=
  match slot with Some id => negb (String.eqb id "") | None => false end.

(** The settlement of an awaited remote call: resolved with a value, or
    rejected (the awaiting async method then rejects at that point). *)
Inductive Outcome (A : Type) := Resolved (a : A) | Rejected.
Arguments Resolved {A} a.
Arguments Rejected {A}.

Section WithEngine.
Context `{E : Engine}.

Record Online := {
  code : string;
  statusText : string;
  overlayVisible : bool;
  overlayText : string;
  chess : Pos;
  role : option Role;
  applyingRemote : bool;
  bothJoined : bool;
  moveDisabled : bool;
  isReversed : bool;
  gameRef : option string;       (* the path games/{code} *)
  clientId : string;
  board : Board.Board
}.

Definition mk c st ov ot ch r ar bj md ir gr ci bd : Online :=
  {| code := c; statusText := st; overlayVisible := ov; overlayText := ot;
     chess := ch; role := r; applyingRemote := ar; bothJoined := bj;
     moveDisabled := md; isReversed := ir; gameRef := gr; clientId := ci;
     board := bd |}.

Definition set_statusText s v := mk (code s) v (overlayVisible s) (overlayText s) (chess s) (role s) (applyingRemote s) (bothJoined s) (moveDisabled s) (isReversed s) (gameRef s) (clientId s) (board s).
Definition set_overlay s vis txt := mk (code s) (statusText s) vis txt (chess s) (role s) (applyingRemote s) (bothJoined s) (moveDisabled s) (isReversed s) (gameRef s) (clientId s) (board s).
Definition set_chess s v := mk (code s) (statusText s) (overlayVisible s) (overlayText s) v (role s) (applyingRemote s) (bothJoined s) (moveDisabled s) (isReversed s) (gameRef s) (clientId s) (board s).
Definition set_role s v := mk (code s) (statusText s) (overlayVisible s) (overlayText s) (chess s) v (applyingRemote s) (bothJoined s) (moveDisabled s) (isReversed s) (gameRef s) (clientId s) (board s).
Definition set_applyingRemote s v := mk (code s) (statusText s) (overlayVisible s) (overlayText s) (chess s) (role s) v (bothJoined s) (moveDisabled s) (isReversed s) (gameRef s) (clientId s) (board s).
Definition set_moveDisabled s v := mk (code s) (statusText s) (overlayVisible s) (overlayText s) (chess s) (role s) (applyingRemote s) (bothJoined s) v (isReversed s) (gameRef s) (clientId s) (board s).
Definition set_isReversed s v := mk (code s) (statusText s) (overlayVisible s) (overlayText s) (chess s) (role s) (applyingRemote s) (bothJoined s) (moveDisabled s) v (gameRef s) (clientId s) (board s).
Definition set_gameRef s v := mk (code s) (statusText s) (overlayVisible s) (overlayText s) (chess s) (role s) (applyingRemote s) (bothJoined s) (moveDisabled s) (isReversed s) v (clientId s) (board s).
Definition set_board s v := mk (code s) (statusText s) (overlayVisible s) (overlayText s) (chess s) (role s) (applyingRemote s) (bothJoined s) (moveDisabled s) (isReversed s) (gameRef s) (clientId s) v.

Definition is_black (r : option Role) : bool :=
  match r with Some black => true | _ => false end.

(** Keep black facing the player; white stays default *)
Definition orientForRole (s : Online) : Online :=
  let shouldBeReversed := is_black (role s) in
  if negb (Bool.eqb shouldBeReversed (isReversed s)) then
    set_isReversed (set_board s (Board.reverse (applyingRemote s) (board s))) shouldBeReversed
  else s.

Definition handleGameOver (s : Online) (winner : Role) : Online * list Op :=
  (set_overlay (set_moveDisabled s true) true
     (String.append (role_upper winner) " wins by checkmate"),
   [LClear]).

Definition path_of (c : string) : string := String.append "games/" c.

(** [joinGame], with [snap] the value returned by [await get(gameRef)]
    ([None] when [!snap.exists()]). *)
Definition joinGame (s : Online) (snap : option GameDoc) : Online * list Op :=
  if role s then (s, []) else
  if String.eqb (code s) "" then (set_statusText s "Enter a game code first.", []) else
  let ref := path_of (code s) in
  let s := set_gameRef s (Some ref) in
  match snap with
  | None => (set_gameRef (set_statusText s "Game not found.") None, [RGet ref])
  | Some val =>
      let players := match d_players val with Some p => p | None => no_players end in
      let whiteTaken := taken (pwhite players) in
      let blackTaken := taken (pblack players) in
      if whiteTaken && blackTaken then
        (set_gameRef (set_statusText s "This game already has two players.") None, [RGet ref])
      else
      let claim :=
        if whiteTaken && negb blackTaken then
          Some (black,
                {| p_fen := None; p_pgn := None; p_turn := None;
                   p_status := Some live; p_winner := None;
                   p_players := Some {| pwhite := pwhite players;
                                        pblack := Some (clientId s) |} |})
        else if negb whiteTaken then
          Some (white,
                {| p_fen := None; p_pgn := None; p_turn := None;
                   p_status := Some waiting; p_winner := None;
                   p_players := Some {| pwhite := Some (clientId s);
                                        pblack := pblack players |} |})
        else None in
      match claim with
      | None => (set_gameRef (set_statusText s "Unable to join right now.") None, [RGet ref])
      | Some (r, patch) =>
          let s1 := set_role s (Some r) in
          let ops := [RGet ref; RUpdate ref patch;
                      LSave {| l_code := code s1; l_role := r; l_clientId := clientId s1 |};
                      Subscribe ref] in
          let s2 := set_statusText s1 (String.append "Joined game: " (code s1)) in
          let s3 := set_isReversed (set_moveDisabled s2 true) false in
          (orientForRole s3, ops)
      end
  end.

(** [onUserMove]: the board has just reported a drag. *)
Definition onUserMove (s : Online) : Online * list Op :=
  match gameRef s, role s with
  | Some ref, Some _ =>
    if applyingRemote s then (s, []) else
    if negb (bothJoined s) || moveDisabled s then (s, []) else
    let fenAfter := Board.getFEN (board s) in
    match load fenAfter with
    | None =>
        (* Revert view to valid state if invalid *)
        let s1 := set_applyingRemote s true in
        let s2 := set_board s1 (Board.setFEN (applyingRemote s1) (fen_of (chess s1)) (board s1)) in
        let s3 := orientForRole (set_isReversed s2 false) in
        (set_applyingRemote s3 false, [])
    | Some p =>
        let s1 := set_chess s p in
        let pgn := pgn_of p in
        let nextTurn := turn p in
        if isCheckmate p then
          let winner := match nextTurn with w => black | b => white end in
          let patch := {| p_fen := Some fenAfter; p_pgn := Some pgn;
                          p_turn := Some nextTurn; p_status := Some ended;
                          p_winner := Some winner; p_players := None |} in
          let '(s2, ops) := handleGameOver s1 winner in
          (s2, RUpdate ref patch :: ops)
        else
          let patch := {| p_fen := Some fenAfter; p_pgn := Some pgn;
                          p_turn := Some nextTurn; p_status := Some live;
                          p_winner := None; p_players := None |} in
          (set_moveDisabled s1 true, [RUpdate ref patch])
    end
  | _, _ => (s, [])
  end.


(** Operations of the handlers that also tear down the realtime listener
    ([this.unsub()]). *)
Inductive LOp := Op_ (o : Op) | Unsubscribe.

Definition set_code s v := mk v (statusText s) (overlayVisible s) (overlayText s) (chess s) (role s) (applyingRemote s) (bothJoined s) (moveDisabled s) (isReversed s) (gameRef s) (clientId s) (board s).
Definition set_bothJoined s v := mk (code s) (statusText s) (overlayVisible s) (overlayText s) (chess s) (role s) (applyingRemote s) v (moveDisabled s) (isReversed s) (gameRef s) (clientId s) (board s).
Definition set_clientId s v := mk (code s) (statusText s) (overlayVisible s) (overlayText s) (chess s) (role s) (applyingRemote s) (bothJoined s) (moveDisabled s) (isReversed s) (gameRef s) v (board s).

(** [createGame], with [newCode] the value [makeCode()] returned. *)
Definition createGame (s : Online) (newCode : string) : Online * list Op :=
  if role s then (s, []) else
  let s1 := set_code (set_role s (Some white)) newCode in
  let op1 := LSave {| l_code := code s1; l_role := white; l_clientId := clientId s1 |} in
  let s2 := set_chess s1 new_chess in
  let ref := path_of (code s2) in
  let s3 := set_gameRef s2 (Some ref) in
  let doc := {| d_fen := fen_of (chess s3); d_pgn := Some (pgn_of (chess s3));
                d_turn := w; d_status := Some waiting; d_winner := None;
                d_players := Some {| pwhite := Some (clientId s3); pblack := None |} |} in
  let s4 := set_statusText s3
              (String.append "Game code: " (String.append (code s3) " — share it with your friend")) in
  let s5 := set_isReversed (set_moveDisabled s4 true) false in
  (orientForRole s5, [op1; RSet ref doc; Subscribe ref]).

(** Reset local UI to the pre-game state (does not delete remote doc) *)
Definition resetLocalUI (s : Online) : Online * list LOp :=
  let s1 := set_gameRef s None in
  let s2 := set_code (set_role s1 None) "" in
  let s3 := set_overlay (set_statusText s2 "Create a game or join one.") false "" in
  let s4 := set_isReversed (set_moveDisabled (set_bothJoined s3 false) true) false in
  let s5 := set_applyingRemote (set_chess s4 new_chess) true in
  let s6 := set_board s5 (Board.reset (applyingRemote s5) (board s5)) in
  (set_applyingRemote s6 false, [Unsubscribe; Op_ LClear]).

(** [leaveGame], with [snap] the settlement of [await get(gameRef)]
    ([Resolved None] when [!snap.exists()]) and [upd] that of the
    [await update(...)] freeing the slot, when it is issued.  A rejection
    ends the method before [resetLocalUI]. *)
Definition leaveGame (s : Online) (snap : Outcome (option GameDoc)) (upd : Outcome unit)
  : Online * list LOp :=
  match role s, gameRef s with
  | Some r, Some ref =>
      match snap with
      | Rejected => (s, [Op_ (RGet ref)])
      | Resolved v =>
          let '(ops, ok) :=
            match v with
            | None => ([RGet ref], true)
            | Some val =>
                let players := match d_players val with Some p => p | None => no_players end in
                let occupant := match r with white => pwhite players | black => pblack players end in
                let mine := match occupant with
                            | Some id => String.eqb id (clientId s) | None => false end in
                if mine then
                  let players' := match r with
                                  | white => {| pwhite := None; pblack := pblack players |}
                                  | black => {| pwhite := pwhite players; pblack := None |}
                                  end in
                  ([RGet ref;
                    RUpdate ref {| p_fen := None; p_pgn := None; p_turn := None;
                                   p_status := Some waiting; p_winner := None;
                                   p_players := Some players' |}],
                   match upd with Resolved _ => true | Rejected => false end)
                else ([RGet ref], true)
            end in
          if ok then
            let '(s', ops') := resetLocalUI s in
            (s', map Op_ ops ++ ops')
          else (s, map Op_ ops)
      end
  | _, _ => resetLocalUI s
  end.

(** The [onValue] callback of [listenForUpdates], on the value of the
    room document ([None] when it is null). *)
Definition onSnapshot (s : Online) (v : option GameDoc) : Online * list Op :=
  match v with
  | None => (s, [])
  | Some val =>
      let players := match d_players val with Some p => p | None => no_players end in
      let s1 := set_bothJoined s (taken (pwhite players) && taken (pblack players)) in
      let s2 :=
        if String.eqb (d_fen val) "" then s1 else
        let a1 := set_applyingRemote s1 true in
        let a2 := set_board a1 (Board.setFEN (applyingRemote a1) (d_fen val) (board a1)) in
        let a3 := set_applyingRemote (orientForRole (set_isReversed a2 false)) false in
        match load (d_fen val) with Some p => set_chess a3 p | None => a3 end in
      let s3 :=
        match role s2 with
        | Some r =>
            let myTurn := (role_eqb r white && turn_eqb (d_turn val) w)
                          || (role_eqb r black && turn_eqb (d_turn val) b) in
            set_moveDisabled s2 (negb (bothJoined s2) || negb myTurn)
        | None => set_moveDisabled s2 true
        end in
      match d_status val, d_winner val with
      | Some ended, Some winner => handleGameOver s3 winner
      | _, _ =>
          if negb (bothJoined s3) then
            (set_statusText s3
               (match role s3 with
                | Some white =>
                    String.append "Game code: " (String.append (code s3) " — share it with your friend")
                | _ => "Waiting for the host…"
                end), [])
          else
            (set_statusText s3
               (String.append "Game: " (String.append (code s3)
                  (String.append " — "
                     (String.append (match d_turn val with w => "White" | b => "Black" end)
                        " to move")))), [])
      end
  end.

(** Attach to an existing game and start listening.  Its only caller is
    the constructor, which runs before Angular binds the [@ViewChild]
    [board]: [this.board] is still undefined there, so an [orientForRole]
    that has to flip the board throws a TypeError ([this.board.reverse()]).
    The first component is [None] when the call throws; the operations are
    those issued up to that point. *)
Definition attachToGame (s : Online) (c : string) (resume : bool) : option Online * list Op :=
  let ref := path_of c in
  let s1 := set_gameRef s (Some ref) in
  if negb resume then (Some s1, []) else
  let s2 := set_isReversed s1 false in
  if negb (Bool.eqb (is_black (role s2)) (isReversed s2)) then (None, [Subscribe ref])
  else (Some (set_statusText s2 (String.append "Resumed game: " c)), [Subscribe ref]).

(** The constructor's resume step, on the session [storage.load()] returned;
    [None] when the constructor throws. *)
Definition resume (s : Online) (saved : option OnlineLocalState) : option Online * list Op :=
  match saved with
  | Some st =>
      if negb (String.eqb (l_code st) "") && negb (String.eqb (l_clientId st) "") then
        let s1 := set_code (set_role (set_clientId s (l_clientId st)) (Some (l_role st))) (l_code st) in
        attachToGame s1 (l_code st) true
      else (Some s, [])
  | None => (Some s, [])
  end.


End WithEngine.
End Online.

(** ** services/storage.service.ts, over a model of [window.localStorage].
    When storage access is denied ([enabled = false]) every call throws;
    [setItem] also throws when the stored keys and values would exceed
    the quota (QuotaExceededError).  A throwing call is [None]. *)
Module Storage.

Record LocalStorage := {
  enabled : bool;
  quota : nat;
  items : list (string * string)
}.

Fixpoint lookup (k : string) (l : list (string * string)) : option string :=
  match l with
  | [] => None
  | (k', v) :: l' => if String.eqb k k' then Some v else lookup k l'
  end.

Definition remove (k : string) (l : list (string * string)) : list (string * string) :=
  filter (fun kv => negb (String.eqb k (fst kv))) l.

Definition size (l : list (string * string)) : nat :=
  fold_right (fun kv acc => String.length (fst kv) + String.length (snd kv) + acc) 0 l.

Definition getItem (ls : LocalStorage) (k : string) : option (option string) :=
  if enabled ls then Some (lookup k (items ls)) else None.

Definition setItem (ls : LocalStorage) (k v : string) : option LocalStorage :=
  if enabled ls then
    let l := (k, v) :: remove k (items ls) in
    if Nat.leb (size l) (quota ls) then
      Some {| enabled := true; quota := quota ls; items := l |}
    else None
  else None.

Definition removeItem (ls : LocalStorage) (k : string) : option LocalStorage :=
  if enabled ls then
    Some {| enabled := true; quota := quota ls; items := remove k (items ls) |}
  else None.

Section Service.
Context {T : Type}.
(** JSON.stringify and JSON.parse at type [T]; a throwing parse is [None]. *)
Variable stringify : T -> string.
Variable parse : string -> option T.

(** [StorageService<T>] with its injected [key]. *)
Definition load (ls : LocalStorage) (key : string) : option T :=
  match getItem ls key with
  | None => None                                   (* catch *)
  | Some None => None                              (* raw is null *)
  | Some (Some raw) => if String.eqb raw "" then None else parse raw
  end.

Definition save (ls : LocalStorage) (key : string) (state : T) : LocalStorage :=
  match setItem ls key (stringify state) with
  | Some ls' => ls'
  | None => ls                                     (* catch {} *)
  end.

Definition clear (ls : LocalStorage) (key : string) : LocalStorage :=
  match removeItem ls key with
  | Some ls' => ls'
  | None => ls                                     (* catch {} *)
  end.
End Service.

(** JSON.stringify / JSON.parse on booleans. *)
Definition json_bool_stringify (x : bool) : string := if x then "true" else "false".
Definition json_bool_parse (s : string) : option bool :=
  if String.eqb s "true" then Some true
  else if String.eqb s "false" then Some false else None.

End Storage.

(** ** Concrete positions and a rules engine that answers as chess.js does
    on them (every other string is treated as rejected). *)
Module Sample.

Definition START := Board.START_FEN.
(** 1.e4 *)
Definition AFTER_E4 := "rnbqkbnr/pppppppp/8/8/4P3/8/PPPP1PPP/RNBQKBNR b KQkq e3 0 1".
(** 1.f3 e5 2.g4, black to move *)
Definition PRE_MATE := "rnbqkbnr/pppp1ppp/8/4p3/6P1/5P2/PPPPP2P/RNBQKBNR b KQkq g3 0 2".
(** 2...Qh4#, white checkmated *)
Definition FOOLS_MATE := "rnb1kbnr/pppp1ppp/8/4p3/6Pq/5P2/PPPPP2P/RNBQKBNR w KQkq - 1 3".
(** Scholar's mate, black checkmated *)
Definition SCHOLARS_MATE := "r1bqkb1r/pppp1Qpp/2n2n2/4p3/2B1P3/8/PPPP1PPP/RNB1K1NR b KQkq - 0 4".

Definition table : list (string * (Turn * bool)) :=
  [(START, (w, false)); (AFTER_E4, (b, false)); (PRE_MATE, (b, false));
   (FOOLS_MATE, (w, true)); (SCHOLARS_MATE, (b, true))].

Fixpoint find (s : string) (l : list (string * (Turn * bool))) : option (Turn * bool) :=
  match l with
  | [] => None
  | (k, v) :: l' => if String.eqb s k then Some v else find s l'
  end.

Definition engine : Engine := {|
  Pos := string;
  new_chess := START;
  load := fun s => match find s table with Some _ => Some s | None => None end;
  turn := fun p => match find p table with Some (t, _) => t | None => w end;
  isCheckmate := fun p => match find p table with Some (_, m) => m | None => false end;
  fen_of := fun p => p;
  pgn_of := fun _ => ""
|}.

End Sample.

(** * Properties *)

Section HostProps.
Context `{E : Engine}.
Import Host.

Definition board_update_event (o : string) (src : Win) (fen : string) : MsgEvent :=
  {| ev_origin := o; ev_source := Some src; ev_data := Some (BOARD_UPDATE fen) |}.

(** C1: a BOARD_UPDATE whose sender is not the window of the side to move
    returns with the host state unchanged, no save and no message. *)
Theorem host_ignores_off_turn_sender :
  forall (h : Host) (o : string) (src : Win) (fen : string),
    currentTurnWindow h <> Some src ->
    onMessage h (board_update_event o src fen) = (h, []).
Proof.
  intros h o src fen Hne. unfold onMessage, board_update_event; simpl.
  destruct (negb (String.eqb o (origin h))); [reflexivity|].
  destruct (currentTurnWindow h) as [x|] eqn:Hc; simpl; [|reflexivity].
  destruct (Nat.eqb src x) eqn:Hx; [|reflexivity].
  apply Nat.eqb_eq in Hx; subst; congruence.
Qed.

(** C2: a BOARD_UPDATE whose FEN the rules engine rejects leaves the host
    state unchanged, saves nothing and sends nothing, whoever sent it. *)
Theorem host_ignores_rejected_fen :
  forall (h : Host) (o : string) (src : Win) (fen : string),
    load fen = None ->
    onMessage h (board_update_event o src fen) = (h, []).
Proof.
  intros h o src fen Hl. unfold onMessage, board_update_event; simpl.
  destruct (negb (String.eqb o (origin h))); [reflexivity|].
  destruct (negb (win_eqb src (currentTurnWindow h))); [reflexivity|].
  rewrite Hl; reflexivity.
Qed.

End HostProps.

Definition host0 (p : string) : @Host.Host Sample.engine :=
  @Host.Build_Host Sample.engine p "" false "" "http://localhost:4200" (Some 1) (Some 2).

Lemma host_ignores_off_turn_sender_witness :
  @Host.currentTurnWindow Sample.engine (host0 Sample.START) <> Some 2 /\
  @Host.onMessage Sample.engine (host0 Sample.START)
    (board_update_event "http://localhost:4200" 2 Sample.AFTER_E4)
  = (host0 Sample.START, []).
Proof.
  split.
  - vm_compute; congruence.
  - apply (@host_ignores_off_turn_sender Sample.engine). vm_compute; congruence.
Defined.

Lemma host_ignores_rejected_fen_witness :
  @load Sample.engine "not a fen" = None /\
  @Host.onMessage Sample.engine (host0 Sample.START)
    (board_update_event "http://localhost:4200" 1 "not a fen")
  = (host0 Sample.START, []).
Proof.
  split.
  - vm_compute; reflexivity.
  - apply (@host_ignores_rejected_fen Sample.engine). vm_compute; reflexivity.
Defined.

(** The side that is not to move: the winner at a checkmate position. *)
Definition side_not_to_move (t : Turn) : Role :=
  match t with w => black | b => white end.

(** C3 (as stated, refuted): the host keeps no game-over state.  After
    Fool's mate is reported and GAME_OVER is broadcast, the checkmated side's
    window reports another position; the host loads it, saves it and
    broadcasts it. *)
Lemma host_after_checkmate_not_frozen_cex :
  let h := host0 Sample.PRE_MATE in
  let o := "http://localhost:4200" in
  let r1 := @Host.onMessage Sample.engine h (board_update_event o 2 Sample.FOOLS_MATE) in
  let r2 := @Host.onMessage Sample.engine (fst r1) (board_update_event o 1 Sample.START) in
  In (Host.PostTo 1 (GAME_OVER black "checkmate")) (snd r1) /\
  In (Host.PostTo 2 (GAME_OVER black "checkmate")) (snd r1) /\
  Host.chess (fst r1) = Sample.FOOLS_MATE /\
  Host.chess (fst r2) = Sample.START /\
  In (Host.Save Sample.START) (snd r2) /\
  In (Host.PostTo 2 (SYNC_STATE Sample.START None)) (snd r2).
Proof. vm_compute. repeat split; auto 10. Qed.

Section HostProps2.
Context `{E : Engine}.
Import Host.

(** The host after a sequence of messages. *)
Fixpoint host_run (h : Host) (evs : list MsgEvent) : Host :=
  match evs with
  | [] => h
  | ev :: evs' => host_run (fst (onMessage h ev)) evs'
  end.

Lemma host_onMessage_frame (h : Host) (ev : MsgEvent) :
  origin (fst (onMessage h ev)) = origin h /\
  window1 (fst (onMessage h ev)) = window1 h /\
  window2 (fst (onMessage h ev)) = window2 h.
Proof.
  unfold onMessage.
  destruct (negb (String.eqb (ev_origin ev) (origin h))); [auto|].
  destruct (ev_source ev) as [src|]; [|auto].
  destruct (ev_data ev) as [m|]; [|auto].
  destruct m; simpl; auto.
  destruct (negb (win_eqb src (currentTurnWindow h))); [auto|].
  destruct (load fen) as [p|]; [|auto].
  destruct (isCheckmate p); simpl; auto.
Qed.

Lemma host_run_frame (h : Host) (evs : list MsgEvent) :
  origin (host_run h evs) = origin h /\
  window1 (host_run h evs) = window1 h /\
  window2 (host_run h evs) = window2 h.
Proof.
  revert h. induction evs as [|ev evs IH]; intros h; simpl; [auto|].
  destruct (IH (fst (onMessage h ev))) as (H1 & H2 & H3).
  destruct (host_onMessage_frame h ev) as (G1 & G2 & G3).
  rewrite H1, H2, H3, G1, G2, G3. auto.
Qed.

Lemma host_move_step (hk : Host) (src2 : Win) (fen2 : string) (p2 : Pos) :
  win_eqb src2 (currentTurnWindow hk) = true -> load fen2 = Some p2 ->
  onMessage hk (board_update_event (origin hk) src2 fen2) =
    (if isCheckmate p2
     then set_overlay (set_chess hk p2) true
            (String.append (role_upper (side_not_to_move (turn p2))) " wins by checkmate")
     else set_turn_text (set_chess hk p2)
            (match turn p2 with w => "White to move" | b => "Black to move" end),
     Save fen2 :: (if isCheckmate p2
                   then postToBoth hk (GAME_OVER (side_not_to_move (turn p2)) "checkmate")
                   else postTo (otherWindow hk src2) (SYNC_STATE fen2 None) ++
                        postToBoth hk (TURN (turn p2)))).
Proof.
  intros Hs Hl. unfold onMessage, board_update_event; simpl.
  rewrite String.eqb_refl; simpl. rewrite Hs; simpl. rewrite Hl.
  destruct (isCheckmate p2); [destruct (turn p2)|]; reflexivity.
Qed.

(** C3 (amended): after a BOARD_UPDATE that yields checkmate, the host
    broadcasts GAME_OVER but keeps no game-over state.  As long as no later
    move has been accepted (whatever messages arrived since), a BOARD_UPDATE
    is ignored exactly when its sender is not the window of the side to
    move at the checkmate position or its FEN is rejected; otherwise it
    is handled like any other move: loaded, saved, then GAME_OVER to both
    iframes if it mates, else SYNC_STATE to the other iframe and TURN to
    both.  Freezing is done by the embedded boards: GAME_OVER disables
    moves and drags of both colours. *)
Theorem host_after_checkmate_only_guards :
  forall (h : Host) (src : Win) (fen : string) (p : Pos),
    win_eqb src (currentTurnWindow h) = true ->
    load fen = Some p -> isCheckmate p = true ->
    let r1 := onMessage h (board_update_event (origin h) src fen) in
    chess (fst r1) = p /\
    snd r1 = Save fen :: postToBoth (fst r1) (GAME_OVER (side_not_to_move (turn p)) "checkmate") /\
    (forall evs : list MsgEvent,
       let hk := host_run (fst r1) evs in
       chess hk = p ->
       currentTurnWindow hk = (match turn p with w => window1 h | b => window2 h end) /\
       (forall src2 fen2,
          (win_eqb src2 (currentTurnWindow hk) = false \/ load fen2 = None) ->
          onMessage hk (board_update_event (origin h) src2 fen2) = (hk, [])) /\
       (forall src2 fen2 p2,
          win_eqb src2 (currentTurnWindow hk) = true -> load fen2 = Some p2 ->
          let r2 := onMessage hk (board_update_event (origin h) src2 fen2) in
          chess (fst r2) = p2 /\
          snd r2 = Save fen2 :: (if isCheckmate p2
                                 then postToBoth hk (GAME_OVER (side_not_to_move (turn p2)) "checkmate")
                                 else postTo (otherWindow hk src2) (SYNC_STATE fen2 None) ++
                                      postToBoth hk (TURN (turn p2))))) /\
    (forall (e : Embed.Embed) winner reason,
       let e' := Embed.onMessage e {| ev_origin := Embed.origin e; ev_source := None;
                                     ev_data := Some (GAME_OVER winner reason) |} in
       Embed.moveDisabled e' = true /\ Embed.darkDisabled e' = true /\
       Embed.lightDisabled e' = true).
Proof.
  intros h src fen p Hsrc Hl Hm. cbv zeta.
  pose proof (host_move_step h src fen p Hsrc Hl) as Hr1. rewrite Hm in Hr1.
  rewrite Hr1. simpl. split; [reflexivity|]. split; [reflexivity|]. split.
  - intros evs Hc.
    set (h1 := set_overlay (set_chess h p) true
                 (String.append (role_upper (side_not_to_move (turn p))) " wins by checkmate")) in *.
    destruct (host_run_frame h1 evs) as (Fo & F1 & F2).
    change (origin h1) with (origin h) in Fo.
    change (window1 h1) with (window1 h) in F1.
    change (window2 h1) with (window2 h) in F2.
    assert (Hcw : currentTurnWindow (host_run h1 evs) =
                  match turn p with w => window1 h | b => window2 h end)
      by (unfold currentTurnWindow; rewrite Hc, F1, F2; reflexivity).
    split; [exact Hcw|]. split.
    + intros src2 fen2 [H2|H2]; unfold onMessage, board_update_event; simpl;
        rewrite <- Fo, String.eqb_refl; simpl; [rewrite H2; reflexivity|].
      destruct (negb _); [reflexivity|]. rewrite H2. reflexivity.
    + intros src2 fen2 p2 H2 Hl2. rewrite <- Fo.
      rewrite (host_move_step _ src2 fen2 p2 H2 Hl2).
      destruct (isCheckmate p2); simpl; split; reflexivity.
  - intros e winner reason; simpl.
    unfold Embed.onMessage; simpl. rewrite String.eqb_refl; simpl.
    unfold Embed.darkDisabled, Embed.lightDisabled; simpl.
    rewrite !orb_true_r; simpl. repeat split; destruct (Embed.role e) as [[|]|]; reflexivity.
Qed.

End HostProps2.

Lemma host_after_checkmate_only_guards_witness :
  @Host.win_eqb 2 (@Host.currentTurnWindow Sample.engine (host0 Sample.PRE_MATE)) = true /\
  @load Sample.engine Sample.FOOLS_MATE = Some Sample.FOOLS_MATE /\
  @isCheckmate Sample.engine Sample.FOOLS_MATE = true /\
  @Host.chess Sample.engine
    (fst (@Host.onMessage Sample.engine (host0 Sample.PRE_MATE)
            (board_update_event "http://localhost:4200" 2 Sample.FOOLS_MATE)))
  = Sample.FOOLS_MATE.
Proof.
  refine (conj _ (conj _ (conj _ _))); [vm_compute; reflexivity .. |].
  apply (@host_after_checkmate_only_guards Sample.engine (host0 Sample.PRE_MATE) 2
           Sample.FOOLS_MATE Sample.FOOLS_MATE); vm_compute; reflexivity.
Defined.

Section WinnerProps.
Context `{E : Engine}.

(** C4: when an accepted move yields a checkmate position, the winner
    recorded is the side not to move there, both in the host's GAME_OVER
    broadcast and in the online game's [ended] write. *)
Theorem checkmate_winner_is_side_not_to_move :
  (forall (h : Host.Host) (src : Win) (fen : string) (p : Pos),
     Host.win_eqb src (Host.currentTurnWindow h) = true ->
     load fen = Some p -> isCheckmate p = true ->
     forall x winner reason,
       In (Host.PostTo x (GAME_OVER winner reason))
          (snd (Host.onMessage h (board_update_event (Host.origin h) src fen))) ->
       winner = side_not_to_move (turn p) /\
       (winner = black <-> turn p = w) /\ (winner = white <-> turn p = b)) /\
  (forall (s : Online.Online) (ref : string) (r : Role) (p : Pos),
     Online.gameRef s = Some ref -> Online.role s = Some r ->
     Online.applyingRemote s = false -> Online.bothJoined s = true ->
     Online.moveDisabled s = false ->
     load (Board.getFEN (Online.board s)) = Some p -> isCheckmate p = true ->
     exists patch,
       hd_error (snd (Online.onUserMove s)) = Some (Online.RUpdate ref patch) /\
       Online.p_status patch = Some Online.ended /\
       Online.p_winner patch = Some (side_not_to_move (turn p)) /\
       (Online.p_winner patch = Some black <-> turn p = w) /\
       (Online.p_winner patch = Some white <-> turn p = b)).
Proof.
  split.
  - intros h src fen p Hsrc Hl Hm x winner reason Hin.
    unfold Host.onMessage, board_update_event in Hin; simpl in Hin.
    rewrite String.eqb_refl, Hsrc, Hl, Hm in Hin; simpl in Hin.
    destruct Hin as [Hin|Hin]; [discriminate|].
    unfold Host.postToBoth, Host.postTo in Hin; simpl in Hin.
    assert (Hw : winner = side_not_to_move (turn p)).
    { destruct (Host.window1 h), (Host.window2 h); simpl in Hin;
        repeat (destruct Hin as [Hin|Hin]; [injection Hin; intros; subst;
                destruct (turn p); reflexivity|]); contradiction. }
    subst winner. split; [reflexivity|].
    destruct (turn p); simpl; split; split; intros; congruence.
  - intros s ref r p Hg Hr Ha Hb Hd Hl Hm.
    unfold Online.onUserMove. rewrite Hg, Hr, Ha, Hb, Hd; simpl. rewrite Hl, Hm; simpl.
    eexists; split; [reflexivity|]. simpl. split; [reflexivity|]. split.
    + destruct (turn p); reflexivity.
    + destruct (turn p); simpl; split; split; intros; congruence.
Qed.

End WinnerProps.

Definition board_at (fen : string) : Board.Board :=
  {| Board.bfen := fen; Board.breversed := false; Board.blog := [] |}.

(** An online player (black) whose board has just reported [fen]. *)
Definition online0 (fen : string) : @Online.Online Sample.engine :=
  @Online.Build_Online Sample.engine "ABC123" "" false "" Sample.PRE_MATE (Some black)
    false true false true (Some "games/ABC123") "client-b" (board_at fen).

Lemma checkmate_winner_is_side_not_to_move_witness :
  (black = side_not_to_move w /\ (black = black <-> w = w) /\ (black = white <-> w = b)) /\
  exists patch,
    hd_error (snd (@Online.onUserMove Sample.engine (online0 Sample.FOOLS_MATE)))
      = Some (Online.RUpdate "games/ABC123" patch) /\
    Online.p_status patch = Some Online.ended /\
    Online.p_winner patch = Some (side_not_to_move w) /\
    (Online.p_winner patch = Some black <-> w = w) /\
    (Online.p_winner patch = Some white <-> w = b).
Proof.
  split.
  - apply (proj1 (@checkmate_winner_is_side_not_to_move Sample.engine)
             (host0 Sample.PRE_MATE) 2 Sample.FOOLS_MATE Sample.FOOLS_MATE
             eq_refl eq_refl eq_refl 1 black "checkmate").
    vm_compute. right. left. reflexivity.
  - apply (proj2 (@checkmate_winner_is_side_not_to_move Sample.engine)
             (online0 Sample.FOOLS_MATE) "games/ABC123" black Sample.FOOLS_MATE);
      vm_compute; reflexivity.
Defined.

(** A player who has typed room code ABC123 and not joined yet. *)
Definition online_fresh : @Online.Online Sample.engine :=
  @Online.Build_Online Sample.engine "ABC123" "Create a game or join one." false ""
    Sample.START None false false true false None "client-c" Board.fresh.

(** The room after its white player left: black is still seated. *)
Definition room_white_left : Online.GameDoc :=
  {| Online.d_fen := Sample.AFTER_E4; Online.d_pgn := Some "1. e4"; Online.d_turn := b;
     Online.d_status := Some Online.waiting; Online.d_winner := None;
     Online.d_players := Some {| Online.pwhite := None; Online.pblack := Some "client-b" |} |}.

(** C5 (code bug): joining a room whose white slot is free while black is
    seated claims white, so both slots are occupied, yet the status
    written is [waiting], not [live]. *)
Theorem join_white_slot_writes_waiting_with_two_players :
  match snd (@Online.joinGame Sample.engine online_fresh (Some room_white_left)) with
  | [Online.RGet _; Online.RUpdate _ patch; Online.LSave _; Online.Subscribe _] =>
      Online.p_status patch = Some Online.waiting /\
      Online.p_players patch =
        Some {| Online.pwhite := Some "client-c"; Online.pblack := Some "client-b" |}
  | _ => False
  end /\
  Online.role (fst (@Online.joinGame Sample.engine online_fresh (Some room_white_left)))
    = Some white.
Proof. vm_compute. split; [split|]; reflexivity. Qed.

Section OrientProps.
Context `{E : Engine}.

Lemma ensureOrientation_fields (e : Embed.Embed) :
  Embed.role (Embed.ensureOrientation e) = Embed.role e /\
  Embed.moveDisabled (Embed.ensureOrientation e) = Embed.moveDisabled e /\
  Embed.applyingRemote (Embed.ensureOrientation e) = Embed.applyingRemote e /\
  Embed.origin (Embed.ensureOrientation e) = Embed.origin e /\
  Embed.isReversed (Embed.ensureOrientation e) = Embed.is_black (Embed.role e) /\
  Board.bfen (Embed.board (Embed.ensureOrientation e)) = Board.bfen (Embed.board e).
Proof.
  unfold Embed.ensureOrientation.
  destruct (Bool.eqb (Embed.is_black (Embed.role e)) (Embed.isReversed e)) eqn:Hq;
    simpl; repeat split; try reflexivity.
  apply Bool.eqb_prop in Hq; symmetry; exact Hq.
Qed.

Lemma ensureOrientation_idem (e : Embed.Embed) :
  Embed.ensureOrientation (Embed.ensureOrientation e) = Embed.ensureOrientation e.
Proof.
  destruct (ensureOrientation_fields e) as (Hr & _ & _ & _ & Hi & _).
  unfold Embed.ensureOrientation at 1. rewrite Hr, Hi, Bool.eqb_reflx. reflexivity.
Qed.

Lemma orientForRole_fields (s : Online.Online) :
  Online.role (Online.orientForRole s) = Online.role s /\
  Online.isReversed (Online.orientForRole s) = Online.is_black (Online.role s).
Proof.
  unfold Online.orientForRole.
  destruct (Bool.eqb (Online.is_black (Online.role s)) (Online.isReversed s)) eqn:Hq;
    simpl; split; try reflexivity.
  apply Bool.eqb_prop in Hq; symmetry; exact Hq.
Qed.

Lemma orientForRole_idem (s : Online.Online) :
  Online.orientForRole (Online.orientForRole s) = Online.orientForRole s.
Proof.
  destruct (orientForRole_fields s) as (Hr & Hi).
  unfold Online.orientForRole at 1. rewrite Hr, Hi, Bool.eqb_reflx. reflexivity.
Qed.

Lemma orient_flag_and_board (e : Embed.Embed) :
  Board.breversed (Embed.board e) = Embed.isReversed e ->
  Board.breversed (Embed.board (Embed.ensureOrientation e)) = Embed.is_black (Embed.role e).
Proof.
  intro H. unfold Embed.ensureOrientation.
  destruct (Embed.is_black (Embed.role e)), (Embed.isReversed e); simpl in *;
    rewrite ?H; reflexivity.
Qed.

Definition embed_event (e : Embed.Embed) (m : WireMessage) : MsgEvent :=
  {| ev_origin := Embed.origin e; ev_source := None; ev_data := Some m |}.

(** C6: the orientation restore is idempotent.  Applied twice,
    [ensureOrientation] (and [orientForRole]) gives the same state, hence
    the same number of [reverse()] calls, as applied once; afterwards the
    tracked flag is set iff the role is black, and so is the board's real
    orientation when the flag tracked it before.  A repeated ROLE_ASSIGN
    changes nothing, and a repeated SYNC_STATE leaves the same position,
    orientation and flags as the first one. *)
Theorem orientation_restore_idempotent :
  (forall e : Embed.Embed,
     Embed.ensureOrientation (Embed.ensureOrientation e) = Embed.ensureOrientation e /\
     Board.flips (Embed.board (Embed.ensureOrientation (Embed.ensureOrientation e)))
       = Board.flips (Embed.board (Embed.ensureOrientation e)) /\
     Embed.isReversed (Embed.ensureOrientation e) = Embed.is_black (Embed.role e) /\
     (Board.breversed (Embed.board e) = Embed.isReversed e ->
      Board.breversed (Embed.board (Embed.ensureOrientation e)) = Embed.is_black (Embed.role e))) /\
  (forall s : Online.Online,
     Online.orientForRole (Online.orientForRole s) = Online.orientForRole s /\
     Board.flips (Online.board (Online.orientForRole (Online.orientForRole s)))
       = Board.flips (Online.board (Online.orientForRole s)) /\
     Online.isReversed (Online.orientForRole s) = Online.is_black (Online.role s)) /\
  (forall (e : Embed.Embed) (r : Role),
     let e1 := Embed.onMessage e (embed_event e (ROLE_ASSIGN r)) in
     Embed.onMessage e1 (embed_event e1 (ROLE_ASSIGN r)) = e1) /\
  (forall (e : Embed.Embed) fen pgn,
     let e1 := Embed.onMessage e (embed_event e (SYNC_STATE fen pgn)) in
     let e2 := Embed.onMessage e1 (embed_event e1 (SYNC_STATE fen pgn)) in
     Board.bfen (Embed.board e2) = Board.bfen (Embed.board e1) /\
     Board.breversed (Embed.board e2) = Board.breversed (Embed.board e1) /\
     Board.breversed (Embed.board e1) = Embed.is_black (Embed.role e) /\
     Embed.isReversed e2 = Embed.isReversed e1 /\
     Embed.role e2 = Embed.role e1 /\
     Embed.moveDisabled e2 = Embed.moveDisabled e1 /\
     Embed.applyingRemote e2 = Embed.applyingRemote e1).
Proof.
  split; [|split; [|split]].
  - intro e. rewrite ensureOrientation_idem.
    split; [reflexivity|]. split; [reflexivity|]. split.
    + apply ensureOrientation_fields.
    + apply orient_flag_and_board.
  - intro s. rewrite orientForRole_idem. split; [reflexivity|]. split; [reflexivity|].
    apply orientForRole_fields.
  - intros e r; simpl. unfold Embed.onMessage at 1; simpl.
    rewrite String.eqb_refl; simpl.
    unfold Embed.onMessage; simpl. rewrite String.eqb_refl; simpl.
    (* the second assignment sets the same role, then orients again *)
    set (e1 := Embed.ensureOrientation (Embed.set_role e r)).
    assert (Hr : Embed.role e1 = Some r) by apply ensureOrientation_fields.
    assert (Hs : Embed.set_role e1 r = e1).
    { destruct e1 as [r1 md ar ir bd o]; simpl in Hr; subst r1; reflexivity. }
    rewrite Hs. apply ensureOrientation_idem.
  - intros [r md ar ir bd o] fen pgn; simpl.
    unfold Embed.onMessage; simpl. rewrite !String.eqb_refl; simpl.
    destruct r as [[|]|]; simpl; repeat split; reflexivity.
Qed.

End OrientProps.

Definition ready_event (o : string) (src : Win) : MsgEvent :=
  {| ev_origin := o; ev_source := Some src; ev_data := Some IFRAME_READY |}.

(** C7 (as stated, refuted): when the second iframe's child (window 2)
    announces readiness first, it is assigned [black], not [white]. *)
Lemma first_ready_child_gets_black_cex :
  hd_error (snd (@Host.onMessage Sample.engine (host0 Sample.START)
                   (ready_event "http://localhost:4200" 2)))
  = Some (Host.PostTo 2 (ROLE_ASSIGN black)).
Proof. vm_compute. reflexivity. Qed.

Section RoleProps.
Context `{E : Engine}.

(** C7 (amended): roles follow the iframe, not the order of readiness.
    Every IFRAME_READY is answered first with ROLE_ASSIGN to its sender:
    [white] for the first iframe's window, [black] for any other; the host
    state keeps its position, so a repeated READY gets the same role.  A
    child whose board is in its initial, unreversed state ends reversed
    after ROLE_ASSIGN black and unreversed after ROLE_ASSIGN white. *)
Theorem role_assignment_by_frame :
  (forall (h : Host.Host) (src : Win),
     let r1 := Host.onMessage h (ready_event (Host.origin h) src) in
     let role := if Host.win_eqb src (Host.window1 h) then white else black in
     hd_error (snd r1) = Some (Host.PostTo src (ROLE_ASSIGN role)) /\
     Host.chess (fst r1) = Host.chess h /\
     Host.window1 (fst r1) = Host.window1 h /\
     hd_error (snd (Host.onMessage (fst r1) (ready_event (Host.origin h) src)))
       = Some (Host.PostTo src (ROLE_ASSIGN role))) /\
  (forall (o : string) (r : Role),
     let e1 := Embed.onMessage (Embed.init o) (embed_event (Embed.init o) (ROLE_ASSIGN r)) in
     Embed.role e1 = Some r /\
     Board.breversed (Embed.board e1) = role_eqb r black /\
     Board.flips (Embed.board e1) = if role_eqb r black then 1 else 0).
Proof.
  split.
  - intros h src; simpl.
    unfold Host.onMessage, ready_event; simpl. rewrite !String.eqb_refl; simpl.
    repeat split; reflexivity.
  - intros o [|]; unfold Embed.onMessage; simpl; rewrite String.eqb_refl;
      repeat split; reflexivity.
Qed.

End RoleProps.

Section TurnProps.
Context `{E : Engine}.

(** The embedded board after a sequence of host events. *)
Fixpoint run (e : Embed.Embed) (evs : list MsgEvent) : Embed.Embed :=
  match evs with
  | [] => e
  | ev :: evs' => run (Embed.onMessage e ev) evs'
  end.

Lemma onMessage_keeps_unset_role_disabled (e : Embed.Embed) (ev : MsgEvent) :
  (Embed.role e = None -> Embed.moveDisabled e = true) ->
  Embed.role (Embed.onMessage e ev) = None ->
  Embed.moveDisabled (Embed.onMessage e ev) = true.
Proof.
  intros Hinv. unfold Embed.onMessage.
  destruct (negb (String.eqb (ev_origin ev) (Embed.origin e))); [exact Hinv|].
  destruct (ev_data ev) as [m|]; [|exact Hinv].
  destruct m; try exact Hinv;
    try (match goal with
         | |- context [Embed.ensureOrientation ?x] =>
             destruct (ensureOrientation_fields x) as (Hr & Hm & _)
         end).
  - (* ROLE_ASSIGN *) rewrite Hr. simpl. intro Hn; discriminate Hn.
  - (* SYNC_STATE *) simpl in *. rewrite Hr, Hm. exact Hinv.
  - (* TURN *) simpl. destruct (Embed.role e) eqn:Hre; [intro Hn; simpl in Hn; congruence | intros _; apply Hinv; reflexivity].
  - (* RESET *) simpl in *. rewrite Hr. intro Hn. rewrite Hn. reflexivity.
  - (* GAME_OVER *) intros _. reflexivity.
Qed.

(** C8: on TURN, an embedded board with no role keeps its whole state
    (and a board that has never been assigned a role has moves disabled
    after any sequence of host events); with a role, moves are enabled
    afterwards iff the announced turn is that role's side. *)
Theorem turn_message_gating :
  (forall (e : Embed.Embed) (t : Turn),
     Embed.role e = None -> Embed.onMessage e (embed_event e (TURN t)) = e) /\
  (forall (o : string) (evs : list MsgEvent),
     Embed.role (run (Embed.init o) evs) = None ->
     Embed.moveDisabled (run (Embed.init o) evs) = true) /\
  (forall (e : Embed.Embed) (r : Role) (t : Turn),
     Embed.role e = Some r ->
     (negb (Embed.moveDisabled (Embed.onMessage e (embed_event e (TURN t)))) = true <->
      (r = white /\ t = w) \/ (r = black /\ t = b))).
Proof.
  split; [|split].
  - intros e t Hr. unfold Embed.onMessage; simpl. rewrite String.eqb_refl, Hr. reflexivity.
  - intros o evs.
    assert (Hgen : forall e, (Embed.role e = None -> Embed.moveDisabled e = true) ->
                    Embed.role (run e evs) = None -> Embed.moveDisabled (run e evs) = true).
    { induction evs as [|ev evs IH]; intros e Hinv; simpl; [exact Hinv|].
      apply IH. intro Hn. apply (onMessage_keeps_unset_role_disabled e ev Hinv Hn). }
    apply Hgen. intros _. reflexivity.
  - intros e r t Hr. unfold Embed.onMessage; simpl. rewrite String.eqb_refl, Hr; simpl.
    destruct r, t; simpl; split; intro H; try reflexivity;
      try discriminate; intuition discriminate.
Qed.

End TurnProps.

Section RevertProps.
Context `{E : Engine}.

(** C9: when the board reports a drag whose FEN the rules engine
    rejects, [onUserMove] issues no remote write, keeps the engine at
    its last valid position, and sets the board back to that position
    and to the role's orientation; every board call it makes runs with
    the [applyingRemote] guard raised, and the guard is lowered after. *)
Theorem online_rejected_move_reverts :
  forall (s : Online.Online) (ref : string) (r : Role),
    Online.gameRef s = Some ref -> Online.role s = Some r ->
    Online.applyingRemote s = false -> Online.bothJoined s = true ->
    Online.moveDisabled s = false ->
    load (Board.getFEN (Online.board s)) = None ->
    let res := Online.onUserMove s in
    snd res = [] /\
    Online.chess (fst res) = Online.chess s /\
    Board.bfen (Online.board (fst res)) = fen_of (Online.chess s) /\
    Board.breversed (Online.board (fst res)) = Online.is_black (Online.role s) /\
    Online.isReversed (fst res) = Online.is_black (Online.role s) /\
    Online.applyingRemote (fst res) = false /\
    Online.role (fst res) = Online.role s /\
    Online.gameRef (fst res) = Online.gameRef s /\
    (exists calls,
       Board.blog (Online.board (fst res))
         = Board.blog (Online.board s) ++ (Board.CSetFEN (fen_of (Online.chess s)), true) :: calls /\
       Forall (fun c => snd c = true) calls).
Proof.
  intros s ref r Hg Hr Ha Hb Hd Hl.
  unfold Online.onUserMove. rewrite Hg, Hr, Ha, Hb, Hd; simpl. rewrite Hl.
  unfold Online.orientForRole; simpl. rewrite Hr.
  destruct r; simpl; rewrite ?Hr, ?Hg; do 8 (split; [reflexivity|]).
  - exists []. split; [reflexivity | constructor].
  - exists [(Board.CReverse, true)]. split.
    + simpl. rewrite <- app_assoc. reflexivity.
    + repeat constructor.
Qed.

End RevertProps.

Lemma online_rejected_move_reverts_witness :
  @load Sample.engine (Board.getFEN (Online.board (online0 "not a fen"))) = None /\
  snd (@Online.onUserMove Sample.engine (online0 "not a fen")) = [].
Proof.
  split; [vm_compute; reflexivity|].
  apply (@online_rejected_move_reverts Sample.engine (online0 "not a fen") "games/ABC123" black);
    vm_compute; reflexivity.
Defined.

(** A browser whose storage access is denied: every localStorage call throws. *)
Definition storage_denied : Storage.LocalStorage :=
  {| Storage.enabled := false; Storage.quota := 5000; Storage.items := [] |}.

(** C10 (as stated, refuted): with storage access denied, [save] swallows
    the exception, and [load] returns null instead of the saved value. *)
Lemma storage_roundtrip_fails_when_denied_cex :
  Storage.load Storage.json_bool_parse
    (Storage.save Storage.json_bool_stringify storage_denied "offline-game-state" true)
    "offline-game-state" = None /\
  Storage.json_bool_parse (Storage.json_bool_stringify true) = Some true.
Proof. vm_compute. split; reflexivity. Qed.

Section StorageProps.
Context {T : Type}.
Variable stringify : T -> string.
Variable parse : string -> option T.

Lemma lookup_remove_same (k : string) (l : list (string * string)) :
  Storage.lookup k (Storage.remove k l) = None.
Proof.
  induction l as [|[k' v] l IH]; simpl; [reflexivity|].
  destruct (String.eqb k k') eqn:Hk; simpl; [exact IH|].
  rewrite Hk. exact IH.
Qed.

(** C10 (amended): [save] then [load] is a round-trip exactly when
    [localStorage.setItem] succeeds (storage accessible and the entry
    within the quota) for a value whose JSON text is non-empty and parses
    back to it; when [setItem] throws, [save] changes nothing and [load]
    returns what it returned before; [load] after [clear] is null in
    every case. *)
Theorem storage_save_load_roundtrip :
  (forall (ls : Storage.LocalStorage) (key : string) (st : T),
     Storage.setItem ls key (stringify st) <> None ->
     parse (stringify st) = Some st -> stringify st <> "" ->
     Storage.load parse (Storage.save stringify ls key st) key = Some st) /\
  (forall (ls : Storage.LocalStorage) (key : string) (st : T),
     Storage.setItem ls key (stringify st) = None ->
     Storage.load parse (Storage.save stringify ls key st) key = Storage.load parse ls key) /\
  (forall (ls : Storage.LocalStorage) (key : string),
     Storage.load parse (Storage.clear ls key) key = None).
Proof.
  split; [|split].
  - intros ls key st Hset Hp Hne.
    unfold Storage.save. destruct (Storage.setItem ls key (stringify st)) as [ls'|] eqn:Hs;
      [|contradiction].
    unfold Storage.setItem in Hs.
    destruct (Storage.enabled ls); [|discriminate].
    destruct (Nat.leb _ _); [|discriminate].
    injection Hs as <-. unfold Storage.load, Storage.getItem; simpl.
    rewrite String.eqb_refl.
    destruct (String.eqb (stringify st) "") eqn:He;
      [apply String.eqb_eq in He; contradiction | exact Hp].
  - intros ls key st Hs. unfold Storage.save. rewrite Hs. reflexivity.
  - intros ls key. unfold Storage.clear, Storage.removeItem.
    destruct (Storage.enabled ls) eqn:He; simpl.
    + unfold Storage.load, Storage.getItem; simpl. rewrite lookup_remove_same. reflexivity.
    + unfold Storage.load, Storage.getItem. rewrite He. reflexivity.
Qed.

End StorageProps.

(** * Further properties of the host, the embedded board and the online game *)

(** The embedded board in window [me] after receiving, in order, the
    messages the host posted to it among [effs]. *)
Fixpoint deliver (e : Embed.Embed) (me : Win) (o : string) (effs : list Host.Effect) : Embed.Embed :=
  match effs with
  | [] => e
  | Host.PostTo t m :: effs' =>
      if Nat.eqb t me
      then deliver (Embed.onMessage e {| ev_origin := o; ev_source := None; ev_data := Some m |}) me o effs'
      else deliver e me o effs'
  | _ :: effs' => deliver e me o effs'
  end.

(** One step of the embedded board for each host message. *)
Definition oriented (r : option Role) (g : bool) (bd : Board.Board) : Board.Board :=
  if Embed.is_black r then Board.reverse g bd else bd.

Lemma embed_sync_step (e : Embed.Embed) (o fen : string) (pgn : option string) (src : option Win) :
  o = Embed.origin e ->
  Embed.onMessage e {| ev_origin := o; ev_source := src; ev_data := Some (SYNC_STATE fen pgn) |} =
  Embed.mk (Embed.role e) (Embed.moveDisabled e) false (Embed.is_black (Embed.role e))
    (oriented (Embed.role e) true (Board.setFEN true fen (Embed.board e))) (Embed.origin e).
Proof.
  intros ->. destruct e as [[[|]|] md ar ir bd o]; unfold Embed.onMessage; simpl;
    rewrite String.eqb_refl; reflexivity.
Qed.

Lemma embed_turn_step (e : Embed.Embed) (o : string) (t : Turn) (r : Role) (src : option Win) :
  o = Embed.origin e -> Embed.role e = Some r ->
  Embed.onMessage e {| ev_origin := o; ev_source := src; ev_data := Some (TURN t) |} =
  Embed.set_moveDisabled e
    (negb ((role_eqb r white && turn_eqb t w) || (role_eqb r black && turn_eqb t b))).
Proof.
  intros -> Hr. unfold Embed.onMessage; simpl. rewrite String.eqb_refl, Hr. reflexivity.
Qed.

Lemma embed_reset_step (e : Embed.Embed) (o : string) (src : option Win) :
  o = Embed.origin e ->
  Embed.onMessage e {| ev_origin := o; ev_source := src; ev_data := Some RESET |} =
  Embed.mk (Embed.role e)
    (negb (match Embed.role e with Some white => true | _ => false end)) false
    (Embed.is_black (Embed.role e))
    (oriented (Embed.role e) false (Board.reset true (Embed.board e))) (Embed.origin e).
Proof.
  intros ->. destruct e as [[[|]|] md ar ir bd o]; unfold Embed.onMessage; simpl;
    rewrite String.eqb_refl; reflexivity.
Qed.

Section HostExtra.
Context `{E : Engine}.

Lemma host_move_effects (h : Host.Host) (src : Win) (fen : string) (p : Pos) (a c : Win) :
  Host.window1 h = Some a -> Host.window2 h = Some c ->
  Host.win_eqb src (Host.currentTurnWindow h) = true ->
  load fen = Some p -> isCheckmate p = false ->
  Host.onMessage h (board_update_event (Host.origin h) src fen) =
  (Host.set_turn_text (Host.set_chess h p)
     (match turn p with w => "White to move" | b => "Black to move" end),
   [Host.Save fen; Host.PostTo (if Nat.eqb src a then c else a) (SYNC_STATE fen None);
    Host.PostTo a (TURN (turn p)); Host.PostTo c (TURN (turn p))]).
Proof.
  intros Ha Hc Hs Hl Hm.
  unfold Host.onMessage, board_update_event; simpl.
  rewrite String.eqb_refl; simpl. rewrite Hs; simpl. rewrite Hl, Hm.
  unfold Host.otherWindow, Host.broadcastTurn, Host.postToBoth, Host.postTo; simpl.
  rewrite Ha, Hc; simpl. destruct (Nat.eqb src a); reflexivity.
Qed.

Lemma src_is_a_window (h : Host.Host) (src a c : Win) :
  Host.window1 h = Some a -> Host.window2 h = Some c ->
  Host.win_eqb src (Host.currentTurnWindow h) = true -> src = a \/ src = c.
Proof.
  intros Ha Hc Hs. unfold Host.currentTurnWindow in Hs. rewrite Ha, Hc in Hs.
  destruct (turn (Host.chess h)); simpl in Hs; apply Nat.eqb_eq in Hs; auto.
Qed.

(** An accepted move that does not end the game is saved, mirrored as
    SYNC_STATE to the other iframe only (never back to its sender), and the
    new turn is announced to both iframes. *)
Theorem host_move_mirrors_to_other_window :
  forall (h : Host.Host) (src : Win) (fen : string) (p : Pos) (a c : Win),
    Host.window1 h = Some a -> Host.window2 h = Some c -> a <> c ->
    Host.win_eqb src (Host.currentTurnWindow h) = true ->
    load fen = Some p -> isCheckmate p = false ->
    let r := Host.onMessage h (board_update_event (Host.origin h) src fen) in
    Host.chess (fst r) = p /\
    snd r = [Host.Save fen; Host.PostTo (if Nat.eqb src a then c else a) (SYNC_STATE fen None);
             Host.PostTo a (TURN (turn p)); Host.PostTo c (TURN (turn p))] /\
    ~ In (Host.PostTo src (SYNC_STATE fen None)) (snd r).
Proof.
  intros h src fen p a c Ha Hc Hac Hs Hl Hm. simpl.
  rewrite (host_move_effects h src fen p a c Ha Hc Hs Hl Hm). simpl.
  split; [reflexivity|]. split; [reflexivity|].
  destruct (src_is_a_window h src a c Ha Hc Hs) as [->| ->].
  - rewrite Nat.eqb_refl. intros [H|[H|[H|[H|H]]]]; try discriminate H; auto.
    injection H; intros; subst; auto.
  - destruct (Nat.eqb c a) eqn:Hca; [apply Nat.eqb_eq in Hca; congruence|].
    intros [H|[H|[H|[H|H]]]]; try discriminate H; auto.
    injection H; intros; subst; auto.
Qed.


(** Messages other than BOARD_UPDATE never change the host's position and
    never touch storage: they only post messages to the iframes. *)
Theorem host_only_board_update_changes_state :
  forall (h : Host.Host) (ev : MsgEvent),
    (forall fen, ev_data ev <> Some (BOARD_UPDATE fen)) ->
    Host.chess (fst (Host.onMessage h ev)) = Host.chess h /\
    Forall (fun x => match x with Host.PostTo _ _ => True | _ => False end)
           (snd (Host.onMessage h ev)).
Proof.
  intros h ev Hnb. unfold Host.onMessage.
  destruct (negb (String.eqb (ev_origin ev) (Host.origin h))); [split; auto|].
  destruct (ev_source ev) as [src|]; [|split; auto].
  destruct (ev_data ev) as [m|] eqn:Hd; [|split; auto].
  destruct m; try (split; simpl; auto; fail).
  - unfold Host.broadcastTurn, Host.syncStateTo, Host.postToBoth, Host.postTo; simpl.
    split; [reflexivity|].
    destruct (Host.window1 h), (Host.window2 h); simpl; repeat constructor.
  - unfold Host.broadcastTurn, Host.syncStateTo, Host.postToBoth, Host.postTo; simpl.
    split; [reflexivity|].
    destruct (Host.window1 h), (Host.window2 h); simpl; repeat constructor.
  - exfalso. apply (Hnb fen). reflexivity.
Qed.

(** A REQUEST_SYNC is answered by the current position sent to the
    requester and the turn sent to both iframes; no role is (re)assigned. *)
Theorem host_request_sync_resends_state :
  forall (h : Host.Host) (src : Win),
    let r := Host.onMessage h {| ev_origin := Host.origin h; ev_source := Some src;
                                 ev_data := Some REQUEST_SYNC |} in
    Host.chess (fst r) = Host.chess h /\
    snd r = Host.PostTo src (SYNC_STATE (fen_of (Host.chess h)) None)
            :: Host.postToBoth h (TURN (turn (Host.chess h))) /\
    (forall x rl, ~ In (Host.PostTo x (ROLE_ASSIGN rl)) (snd r)).
Proof.
  intros h src. unfold Host.onMessage; simpl. rewrite String.eqb_refl; simpl.
  split; [reflexivity|]. split; [reflexivity|].
  intros x rl [H|H]; [discriminate H|].
  unfold Host.postToBoth, Host.postTo in H.
  destruct (Host.window1 h), (Host.window2 h); simpl in H;
    intuition discriminate.
Qed.

(** [newGame] reinstalls a fresh position, clears the saved game and
    hides the overlay; each iframe, once it has received the RESET,
    SYNC_STATE and TURN messages, shows the fresh position in its role's
    orientation with moves enabled only for white. *)
Theorem new_game_resets_both_boards :
  forall (h : Host.Host) (a c : Win),
    Host.window1 h = Some a -> Host.window2 h = Some c -> a <> c ->
    turn new_chess = w ->
    let r := Host.newGame h in
    Host.chess (fst r) = new_chess /\ Host.overlayVisible (fst r) = false /\
    hd_error (snd r) = Some Host.Clear /\
    (forall (e : Embed.Embed) (rl : Role) (me : Win),
       (me = a \/ me = c) -> Embed.role e = Some rl -> Embed.origin e = Host.origin h ->
       let e' := deliver e me (Host.origin h) (snd r) in
       Board.bfen (Embed.board e') = fen_of new_chess /\
       Board.breversed (Embed.board e') = role_eqb rl black /\
       Embed.moveDisabled e' = negb (role_eqb rl white) /\
       Embed.applyingRemote e' = false).
Proof.
  intros h a c Ha Hc Hac Hw. unfold Host.newGame, Host.broadcastTurn, Host.postToBoth, Host.postTo.
  simpl. rewrite Ha, Hc, Hw. simpl.
  split; [reflexivity|]. split; [reflexivity|]. split; [reflexivity|].
  intros e rl me Hme Hr Ho.
  assert (Hca : Nat.eqb c a = false) by (apply Nat.eqb_neq; congruence).
  assert (Hac' : Nat.eqb a c = false) by (apply Nat.eqb_neq; congruence).
  destruct Hme as [->| ->]; simpl; rewrite ?Nat.eqb_refl, ?Hca, ?Hac'; simpl;
    rewrite embed_reset_step by auto; rewrite embed_sync_step by auto;
    rewrite embed_turn_step with (r := rl) by (simpl; auto);
    simpl; unfold oriented; rewrite Hr;
    destruct rl; simpl; repeat split; reflexivity.
Qed.

End HostExtra.

Section EmbedExtra.

(** What the embedded board keeps between messages. *)
Definition embed_inv (e : Embed.Embed) : Prop :=
  Embed.applyingRemote e = false /\
  Embed.isReversed e = Embed.is_black (Embed.role e) /\
  Board.breversed (Embed.board e) = Embed.isReversed e.

Lemma embed_inv_step (e : Embed.Embed) (ev : MsgEvent) :
  embed_inv e -> embed_inv (Embed.onMessage e ev).
Proof.
  intros (Ha & Hi & Hb). destruct ev as [o src d].
  destruct (String.eqb o (Embed.origin e)) eqn:Ho;
    [|unfold Embed.onMessage; simpl; rewrite Ho; simpl; repeat split; assumption].
  apply String.eqb_eq in Ho.
  destruct d as [m|];
    [|unfold Embed.onMessage; simpl; rewrite Ho, String.eqb_refl; repeat split; assumption].
  destruct m as [|r| |fen pgn|fen|t| |wn rs].
  - unfold Embed.onMessage; simpl. rewrite Ho, String.eqb_refl; repeat split; assumption.
  - unfold Embed.onMessage; simpl. rewrite Ho, String.eqb_refl; simpl.
    destruct (ensureOrientation_fields (Embed.set_role e r)) as (Hr' & _ & Ha' & _ & Hi' & _).
    unfold embed_inv. rewrite Ha', Hi', Hr'. simpl. split; [exact Ha|]. split; [reflexivity|].
    apply orient_flag_and_board. exact Hb.
  - unfold Embed.onMessage; simpl. rewrite Ho, String.eqb_refl; repeat split; assumption.
  - rewrite embed_sync_step by exact Ho. unfold embed_inv, oriented; simpl.
    destruct (Embed.role e) as [[|]|]; repeat split.
  - unfold Embed.onMessage; simpl. rewrite Ho, String.eqb_refl; repeat split; assumption.
  - unfold Embed.onMessage; simpl. rewrite Ho, String.eqb_refl; simpl.
    destruct (Embed.role e) eqn:Hr; unfold Embed.set_moveDisabled, Embed.mk; simpl; repeat split; simpl in *; rewrite ?Hr; simpl; congruence.
  - rewrite embed_reset_step by exact Ho. unfold embed_inv, oriented; simpl.
    destruct (Embed.role e) as [[|]|]; repeat split.
  - unfold Embed.onMessage; simpl. rewrite Ho, String.eqb_refl; repeat split; assumption.
Qed.

Lemma embed_inv_run (e : Embed.Embed) (evs : list MsgEvent) :
  embed_inv e -> embed_inv (run e evs).
Proof.
  revert e. induction evs as [|ev evs IH]; intros e He; simpl; [exact He|].
  apply IH, embed_inv_step, He.
Qed.

Lemma unset_role_disabled_run (e : Embed.Embed) (evs : list MsgEvent) :
  (Embed.role e = None -> Embed.moveDisabled e = true) ->
  Embed.role (run e evs) = None -> Embed.moveDisabled (run e evs) = true.
Proof.
  revert e. induction evs as [|ev evs IH]; intros e Hinv; simpl; [exact Hinv|].
  apply IH. intro Hr. apply (onMessage_keeps_unset_role_disabled e ev Hinv Hr).
Qed.

(** After any sequence of host messages, the embedded board has lowered
    its remote-update guard, its board is shown reversed exactly when its
    role is black (and the tracked flag agrees), and a drag is reported to
    the host as a BOARD_UPDATE carrying the board's current FEN. *)
Theorem embed_orientation_and_guard_invariant :
  forall (o : string) (evs : list MsgEvent),
    let e := run (Embed.init o) evs in
    Embed.applyingRemote e = false /\
    Board.breversed (Embed.board e) = Embed.is_black (Embed.role e) /\
    Embed.isReversed e = Embed.is_black (Embed.role e) /\
    Embed.onUserMove e = Some (BOARD_UPDATE (Board.getFEN (Embed.board e))).
Proof.
  intros o evs. simpl.
  destruct (embed_inv_run (Embed.init o) evs) as (Ha & Hi & Hb); [repeat split|].
  rewrite Hb, Hi. split; [exact Ha|]. split; [reflexivity|]. split; [reflexivity|].
  unfold Embed.onUserMove. rewrite Ha. reflexivity.
Qed.

(** After any sequence of host messages, a colour's pieces can be dragged
    only by the player of that colour and only while moves are enabled;
    before a role is assigned, no piece can be dragged. *)
Theorem embed_drag_gating :
  forall (o : string) (evs : list MsgEvent),
    let e := run (Embed.init o) evs in
    Embed.lightDisabled e =
      negb (match Embed.role e with Some white => true | _ => false end) || Embed.moveDisabled e /\
    Embed.darkDisabled e = negb (Embed.is_black (Embed.role e)) || Embed.moveDisabled e /\
    (Embed.role e = None -> Embed.lightDisabled e = true /\ Embed.darkDisabled e = true).
Proof.
  intros o evs. simpl.
  destruct (embed_inv_run (Embed.init o) evs) as (Ha & _ & _); [repeat split|].
  pose proof (unset_role_disabled_run (Embed.init o) evs (fun _ => eq_refl)) as Hn.
  unfold Embed.lightDisabled, Embed.darkDisabled. rewrite Ha.
  destruct (Embed.role (run (Embed.init o) evs)) as [[|]|]; simpl;
    rewrite ?orb_false_r; repeat split; intros; try reflexivity; try (apply Hn; reflexivity);
    match goal with H : Some _ = None |- _ => discriminate H end.
Qed.

End EmbedExtra.

(** Firebase's [update(ref, patch)] on the room document: every field
    present in the patch replaces that child of the document. *)
Definition apply_patch (d : Online.GameDoc) (p : Online.Patch) : Online.GameDoc :=
  {| Online.d_fen := match Online.p_fen p with Some x => x | None => Online.d_fen d end;
     Online.d_pgn := match Online.p_pgn p with Some x => Some x | None => Online.d_pgn d end;
     Online.d_turn := match Online.p_turn p with Some x => x | None => Online.d_turn d end;
     Online.d_status := match Online.p_status p with Some x => Some x | None => Online.d_status d end;
     Online.d_winner := match Online.p_winner p with Some x => Some x | None => Online.d_winner d end;
     Online.d_players := match Online.p_players p with Some x => Some x | None => Online.d_players d end |}.

(** [val.players || {}] *)
Definition players_of (d : Online.GameDoc) : Online.PlayersDoc :=
  match Online.d_players d with Some p => p | None => Online.no_players end.

Section OnlineExtra.
Context `{E : Engine}.




Lemma resetLocalUI_eq (s : Online.Online) :
  Online.role (fst (Online.resetLocalUI s)) = None /\
  Online.gameRef (fst (Online.resetLocalUI s)) = None /\
  snd (Online.resetLocalUI s) = [Online.Unsubscribe; Online.Op_ Online.LClear].
Proof. repeat split. Qed.

(** Leaving never writes a whole room, and its only write frees this
    client's own slot: it happens only when the read room holds this
    client's id in the held role's slot, sets that slot to null, keeps the
    other slot as read, and sets status [waiting].  The local state is
    reset (no role, no room reference, listener torn down, saved session
    cleared) when no role or room is held, or when the read and any write
    it issues succeed; when the read or the write is rejected, the method
    stops before the reset: state, listener and saved session are kept. *)
Theorem leave_game_resets_unless_remote_fails :
  forall (s : Online.Online) (snap : Online.Outcome (option Online.GameDoc))
         (upd : Online.Outcome unit),
    let res := Online.leaveGame s snap upd in
    let wrote := exists ref patch, In (Online.Op_ (Online.RUpdate ref patch)) (snd res) in
    (forall path d, ~ In (Online.Op_ (Online.RSet path d)) (snd res)) /\
    (forall ref patch, In (Online.Op_ (Online.RUpdate ref patch)) (snd res) ->
       exists r val,
         Online.role s = Some r /\ Online.gameRef s = Some ref /\
         snap = Online.Resolved (Some val) /\
         (match r with white => Online.pwhite | black => Online.pblack end) (players_of val)
           = Some (Online.clientId s) /\
         Online.p_status patch = Some Online.waiting /\
         Online.p_players patch =
           Some (match r with
                 | white => {| Online.pwhite := None; Online.pblack := Online.pblack (players_of val) |}
                 | black => {| Online.pwhite := Online.pwhite (players_of val); Online.pblack := None |}
                 end)) /\
    (Online.role s = None \/ Online.gameRef s = None \/
     (snap <> Online.Rejected /\ (upd = Online.Rejected -> ~ wrote)) ->
       Online.role (fst res) = None /\ Online.gameRef (fst res) = None /\
       In (Online.Op_ Online.LClear) (snd res) /\ In Online.Unsubscribe (snd res)) /\
    (Online.role s <> None -> Online.gameRef s <> None ->
     snap = Online.Rejected \/ (upd = Online.Rejected /\ wrote) ->
       fst res = s /\ ~ In (Online.Op_ Online.LClear) (snd res) /\
       ~ In Online.Unsubscribe (snd res)).
Proof.
  intros s snap upd. cbv zeta. unfold Online.leaveGame.
  destruct (Online.role s) as [r|] eqn:Hr; [destruct (Online.gameRef s) as [ref|] eqn:Hg|].
  2, 3: destruct (resetLocalUI_eq s) as (H1 & H2 & H3); rewrite H3;
    split; [intros ? ? Hin; simpl in Hin; intuition discriminate|];
    split; [intros ? ? Hin; simpl in Hin; intuition discriminate|];
    split; [intros _; repeat split; auto; simpl; auto|];
    intros Hn1 Hn2; exfalso; auto.
  destruct (Online.resetLocalUI s) as [s' ops'] eqn:HR.
  destruct (resetLocalUI_eq s) as (H1 & H2 & H3); rewrite HR in H1, H2, H3; simpl in *; subst ops'.
  destruct snap as [v|].
  2: { simpl.
       split; [intros ? ? Hin; simpl in Hin; intuition discriminate|].
       split; [intros ? ? Hin; simpl in Hin; intuition discriminate|].
       split; [intros [H|[H|[H _]]]; [discriminate H|discriminate H|exfalso; apply H; reflexivity]|].
       intros _ _ _. split; [reflexivity|]. simpl; intuition discriminate. }
  assert (Hrs : forall ops : list Online.Op,
             (forall ref' p', ~ In (Online.RUpdate ref' p') ops) ->
             (forall path d, ~ In (Online.RSet path d) ops) ->
             let res := (s', map Online.Op_ ops ++ [Online.Unsubscribe; Online.Op_ Online.LClear]) in
             (forall path d, ~ In (Online.Op_ (Online.RSet path d)) (snd res)) /\
             (forall ref' p', ~ In (Online.Op_ (Online.RUpdate ref' p')) (snd res)) /\
             Online.role (fst res) = None /\ Online.gameRef (fst res) = None /\
             In (Online.Op_ Online.LClear) (snd res) /\ In Online.Unsubscribe (snd res)).
  { intros ops Hu Hs. simpl.
    split; [intros path d Hin; apply in_app_or in Hin; destruct Hin as [Hin|Hin];
            [apply in_map_iff in Hin; destruct Hin as (x & Hx & Hin); injection Hx as ->; exact (Hs _ _ Hin)
            |simpl in Hin; intuition discriminate]|].
    split; [intros ref' p' Hin; apply in_app_or in Hin; destruct Hin as [Hin|Hin];
            [apply in_map_iff in Hin; destruct Hin as (x & Hx & Hin); injection Hx as ->; exact (Hu _ _ Hin)
            |simpl in Hin; intuition discriminate]|].
    repeat split; auto; apply in_or_app; right; simpl; auto. }
  destruct v as [val|].
  2: { destruct (Hrs [Online.RGet ref]) as (A1 & A2 & A3 & A4 & A5 & A6);
         [simpl; intuition discriminate .. |].
       simpl in *.
       split; [exact A1|]. split; [intros ref' p' Hin; exfalso; exact (A2 _ _ Hin)|].
       split; [intros _; auto|].
       intros _ _ [H|[_ (ref' & p' & Hin)]]; [discriminate H|exfalso; exact (A2 _ _ Hin)]. }
  unfold players_of.
  destruct (Online.d_players val) as [[pw pb]|] eqn:Hp; destruct r; simpl;
    [destruct pw as [id|]|destruct pb as [id|]|..];
    try (destruct (String.eqb id (Online.clientId s)) eqn:Hid;
         [apply String.eqb_eq in Hid; subst id; destruct upd as [[]|]|]).
  all: split; [intros path d Hin; simpl in Hin; intuition discriminate|].
  all: split; [intros ref0 patch Hin; simpl in Hin; repeat destruct Hin as [Hin|Hin];
               try discriminate; try contradiction;
               injection Hin as <- <-; eexists _, _; repeat split; eauto; rewrite Hp; reflexivity|].
  all: split; [intros Hc; first
                 [ simpl; rewrite H1, H2; intuition auto; fail
                 | destruct Hc as [H|[H|[_ H]]];
                   [discriminate H|discriminate H
                   |exfalso; apply H; [reflexivity|eexists _, _; simpl; right; left; reflexivity]] ]|].
  all: intros _ _ [H|[H W]]; [discriminate H|first
         [ discriminate H
         | split; [reflexivity|simpl; intuition discriminate]
         | destruct W as (? & ? & Hin); simpl in Hin; intuition discriminate ]].
Qed.

(** The two phases of the [onValue] callback: syncing the document
    into the component, then reporting the status. *)
Definition snapshot_pre (s : Online.Online) (val : Online.GameDoc) : Online.Online :=
  let players := players_of val in
  let s1 := Online.set_bothJoined s (Online.taken (Online.pwhite players)
                                     && Online.taken (Online.pblack players)) in
  let s2 :=
    if String.eqb (Online.d_fen val) "" then s1 else
    let a1 := Online.set_applyingRemote s1 true in
    let a2 := Online.set_board a1 (Board.setFEN (Online.applyingRemote a1) (Online.d_fen val) (Online.board a1)) in
    let a3 := Online.set_applyingRemote (Online.orientForRole (Online.set_isReversed a2 false)) false in
    match load (Online.d_fen val) with Some p => Online.set_chess a3 p | None => a3 end in
  match Online.role s2 with
  | Some r =>
      let myTurn := (role_eqb r white && turn_eqb (Online.d_turn val) w)
                    || (role_eqb r black && turn_eqb (Online.d_turn val) b) in
      Online.set_moveDisabled s2 (negb (Online.bothJoined s2) || negb myTurn)
  | None => Online.set_moveDisabled s2 true
  end.

Definition snapshot_post (s3 : Online.Online) (val : Online.GameDoc) : Online.Online * list Online.Op :=
  match Online.d_status val, Online.d_winner val with
  | Some Online.ended, Some winner => Online.handleGameOver s3 winner
  | _, _ =>
      if negb (Online.bothJoined s3) then
        (Online.set_statusText s3
           (match Online.role s3 with
            | Some white =>
                String.append "Game code: " (String.append (Online.code s3) " — share it with your friend")
            | _ => "Waiting for the host…"
            end), [])
      else
        (Online.set_statusText s3
           (String.append "Game: " (String.append (Online.code s3)
              (String.append " — "
                 (String.append (match Online.d_turn val with w => "White" | b => "Black" end)
                    " to move")))), [])
  end.

Lemma onSnapshot_phases (s : Online.Online) (val : Online.GameDoc) :
  Online.onSnapshot s (Some val) = snapshot_post (snapshot_pre s val) val.
Proof. reflexivity. Qed.

Lemma snapshot_post_fields (s3 : Online.Online) (val : Online.GameDoc) :
  let res := snapshot_post s3 val in
  (forall o, In o (snd res) -> o = Online.LClear) /\
  Online.role (fst res) = Online.role s3 /\
  Online.gameRef (fst res) = Online.gameRef s3 /\
  Online.bothJoined (fst res) = Online.bothJoined s3 /\
  Online.board (fst res) = Online.board s3 /\
  Online.isReversed (fst res) = Online.isReversed s3 /\
  Online.applyingRemote (fst res) = Online.applyingRemote s3 /\
  Online.chess (fst res) = Online.chess s3 /\
  (Online.moveDisabled (fst res) = false <->
     Online.moveDisabled s3 = false /\
     ~ (Online.d_status val = Some Online.ended /\ Online.d_winner val <> None)).
Proof.
  unfold snapshot_post. destruct val as [fen pgn t stt wn pls]; simpl.
  destruct stt as [[| |]|], wn as [|]; unfold Online.handleGameOver; simpl;
    try destruct (negb (Online.bothJoined s3)); simpl;
    (split; [intros o Hin; simpl in Hin; intuition congruence|]);
    repeat (split; [reflexivity|]);
    (split; [intros H; first [discriminate H | split; [exact H | intros [H1 H2]; first [discriminate H1 | apply H2; reflexivity]]]
            | intros [H1 H2]; first [exact H1 | exfalso; apply H2; split; [reflexivity | discriminate]]]).
Qed.

Lemma snapshot_pre_fields (s : Online.Online) (val : Online.GameDoc) :
  let p := snapshot_pre s val in
  let both := Online.taken (Online.pwhite (players_of val))
              && Online.taken (Online.pblack (players_of val)) in
  Online.role p = Online.role s /\
  Online.gameRef p = Online.gameRef s /\
  Online.bothJoined p = both /\
  (Online.d_fen val <> "" ->
     Board.bfen (Online.board p) = Online.d_fen val /\
     Board.breversed (Online.board p) = Online.is_black (Online.role s) /\
     Online.isReversed p = Online.is_black (Online.role s) /\
     Online.applyingRemote p = false /\
     Online.chess p = match load (Online.d_fen val) with Some q => q | None => Online.chess s end /\
     exists l, Board.blog (Online.board p) = Board.blog (Online.board s) ++ l /\
               forall c, In c l -> snd c = true) /\
  (Online.d_fen val = "" -> Online.board p = Online.board s) /\
  (Online.moveDisabled p = false <->
     both = true /\
     (Online.role s = Some white /\ Online.d_turn val = w \/
      Online.role s = Some black /\ Online.d_turn val = b)).
Proof.
  destruct s as [c st ov ot ch r ar bj md ir gr ci bd].
  destruct val as [fen pgn t stt wn pls]. unfold snapshot_pre, players_of. simpl.
  destruct (String.eqb fen "") eqn:Hf; [apply String.eqb_eq in Hf; subst fen | apply String.eqb_neq in Hf].
  all: destruct (match pls with Some p => p | None => Online.no_players end) as [pw pb].
  all: simpl.
  all: destruct (Online.taken pw), (Online.taken pb).
  all: try destruct (load fen) eqn:Hl.
  all: destruct r as [[|]|], t.
  all: unfold Online.orientForRole; simpl.
  all: split; [reflexivity|]; split; [reflexivity|]; split; [reflexivity|].
  all: split; [intros Hne; first [exfalso; apply Hne; reflexivity|
               refine (conj _ (conj _ (conj _ (conj _ (conj _ _))))); try reflexivity;
               eexists; split; [try rewrite <- app_assoc; reflexivity|];
               intros cl Hcl; simpl in Hcl; intuition (subst; reflexivity)]|].
  all: split; [intros Hemp; try reflexivity; contradiction|].
  all: split; intro H;
    [ first [ discriminate H
            | split; [reflexivity | first [left; split; reflexivity | right; split; reflexivity]] ]
    | destruct H as (H1 & H2);
      first [ reflexivity | discriminate H1
            | destruct H2 as [[H4 H5]|[H4 H5]]; discriminate ] ].
Qed.

(** A room update never writes to the room: the only operation it can
    issue is clearing the saved session (on a finished game).  It keeps the
    role and the room reference; [bothJoined] is whether both slots are
    occupied; a non-empty fen is shown on the board in the role's
    orientation, every board call being made with the guard raised and the
    guard lowered afterwards, and the engine takes the position when it
    accepts it.  Moves end up enabled exactly when both slots are occupied,
    the held role is the side to move, and the game has not ended with a
    winner. *)
Theorem snapshot_sync_and_gating :
  forall (s : Online.Online) (val : Online.GameDoc),
    let res := Online.onSnapshot s (Some val) in
    let both := Online.taken (Online.pwhite (players_of val))
                && Online.taken (Online.pblack (players_of val)) in
    (forall o, In o (snd res) -> o = Online.LClear) /\
    Online.role (fst res) = Online.role s /\
    Online.gameRef (fst res) = Online.gameRef s /\
    Online.bothJoined (fst res) = both /\
    (Online.d_fen val <> "" ->
       Board.bfen (Online.board (fst res)) = Online.d_fen val /\
       Board.breversed (Online.board (fst res)) = Online.is_black (Online.role s) /\
       Online.isReversed (fst res) = Online.is_black (Online.role s) /\
       Online.applyingRemote (fst res) = false /\
       Online.chess (fst res) =
         match load (Online.d_fen val) with Some p => p | None => Online.chess s end /\
       exists l, Board.blog (Online.board (fst res)) = Board.blog (Online.board s) ++ l /\
                 forall c, In c l -> snd c = true) /\
    (Online.d_fen val = "" -> Online.board (fst res) = Online.board s) /\
    (Online.moveDisabled (fst res) = false <->
       both = true /\
       (Online.role s = Some white /\ Online.d_turn val = w \/
        Online.role s = Some black /\ Online.d_turn val = b) /\
       ~ (Online.d_status val = Some Online.ended /\ Online.d_winner val <> None)).
Proof.
  intros s val. cbv zeta. rewrite onSnapshot_phases.
  destruct (snapshot_post_fields (snapshot_pre s val) val)
    as (Hops & Hr & Hg & Hbj & Hbd & Hir & Har & Hch & Hmd).
  destruct (snapshot_pre_fields s val) as (Pr & Pg & Pbj & Pfen & Pemp & Pmd).
  split; [exact Hops|].
  split; [congruence|]. split; [congruence|]. split; [congruence|].
  split; [intros Hne; rewrite Hbd, Hir, Har, Hch; exact (Pfen Hne)|].
  split; [intros Hemp; rewrite Hbd; exact (Pemp Hemp)|].
  rewrite Hmd, Pmd. tauto.
Qed.

(** The constructor's resume step, run before the [@ViewChild] board is
    bound.  With a saved session whose code and client id are non-empty it
    subscribes to the room and issues no read or write.  A white session is
    restored (client id, role, code, room reference; board untouched).  A
    black session needs the board flipped, and [this.board.reverse()] on
    the still-unbound board throws: the constructor fails after having
    subscribed.  A session with an empty code or client id, or no session,
    changes nothing. *)
Theorem resume_restores_session :
  forall (s : Online.Online) (st : Online.OnlineLocalState),
    (Online.l_code st <> "" -> Online.l_clientId st <> "" ->
       let res := Online.resume s (Some st) in
       snd res = [Online.Subscribe (Online.path_of (Online.l_code st))] /\
       (Online.l_role st = white ->
          exists s', fst res = Some s' /\
            Online.role s' = Some white /\
            Online.code s' = Online.l_code st /\
            Online.clientId s' = Online.l_clientId st /\
            Online.gameRef s' = Some (Online.path_of (Online.l_code st)) /\
            Online.isReversed s' = false /\
            Online.board s' = Online.board s) /\
       (Online.l_role st = black -> fst res = None)) /\
    (Online.l_code st = "" \/ Online.l_clientId st = "" ->
       Online.resume s (Some st) = (Some s, [])) /\
    Online.resume s None = (Some s, []).
Proof.
  intros s [c r ci]. simpl. split; [|split; [|reflexivity]].
  - intros Hc Hci. unfold Online.resume, Online.attachToGame. simpl.
    apply String.eqb_neq in Hc, Hci. rewrite Hc, Hci. simpl.
    destruct r; simpl.
    + split; [reflexivity|]. split; [|intros H; discriminate H].
      intros _. eexists. split; [reflexivity|]. repeat split.
    + split; [reflexivity|]. split; [intros H; discriminate H|]. intros _. reflexivity.
  - intros H. unfold Online.resume. simpl.
    destruct H as [->| ->]; simpl; [reflexivity|].
    rewrite andb_false_r. reflexivity.
Qed.


Lemma snapshot_facts (s : Online.Online) (val : Online.GameDoc) :
  let res := Online.onSnapshot s (Some val) in
  Online.role (fst res) = Online.role s /\
  (Online.d_fen val <> "" ->
     Board.breversed (Online.board (fst res)) = Online.is_black (Online.role s)) /\
  (Online.moveDisabled (fst res) = false <->
     Online.taken (Online.pwhite (players_of val))
       && Online.taken (Online.pblack (players_of val)) = true /\
     (Online.role s = Some white /\ Online.d_turn val = w \/
      Online.role s = Some black /\ Online.d_turn val = b) /\
     ~ (Online.d_status val = Some Online.ended /\ Online.d_winner val <> None)).
Proof.
  cbv zeta. rewrite onSnapshot_phases.
  destruct (snapshot_post_fields (snapshot_pre s val) val)
    as (Hops & Hr & Hg & Hbj & Hbd & Hir & Har & Hch & Hmd).
  destruct (snapshot_pre_fields s val) as (Pr & Pg & Pbj & Pfen & Pemp & Pmd).
  split; [congruence|]. split; [intros Hne; rewrite Hbd; apply (Pfen Hne)|].
  rewrite Hmd, Pmd. tauto.
Qed.

(** Two clients meeting through the room: one creates the game, the other
    joins with the room document the creator wrote; once the joiner's
    patch is applied, the next room update enables moves for the creator
    (white, to move) and keeps them disabled for the joiner (black), whose
    board is the reversed one. *)
Theorem create_join_handshake :
  forall (h j : Online.Online) (c : string),
    Online.role h = None -> Online.role j = None -> Online.code j = c -> c <> "" ->
    Online.clientId h <> "" -> Online.clientId j <> "" -> fen_of new_chess <> "" ->
    let h1 := fst (Online.createGame h c) in
    exists doc,
      In (Online.RSet (Online.path_of c) doc) (snd (Online.createGame h c)) /\
      let j1 := fst (Online.joinGame j (Some doc)) in
      exists patch,
        In (Online.RUpdate (Online.path_of c) patch) (snd (Online.joinGame j (Some doc))) /\
        let doc' := apply_patch doc patch in
        Online.role h1 = Some white /\ Online.role j1 = Some black /\
        Online.d_status doc' = Some Online.live /\
        Online.moveDisabled (fst (Online.onSnapshot h1 (Some doc'))) = false /\
        Online.moveDisabled (fst (Online.onSnapshot j1 (Some doc'))) = true /\
        Board.breversed (Online.board (fst (Online.onSnapshot h1 (Some doc')))) = false /\
        Board.breversed (Online.board (fst (Online.onSnapshot j1 (Some doc')))) = true.
Proof.
  intros h j c Hh Hj Hjc Hc Hih Hij Hfen. cbv zeta.
  set (doc := {| Online.d_fen := fen_of new_chess; Online.d_pgn := Some (pgn_of new_chess);
                 Online.d_turn := w; Online.d_status := Some Online.waiting;
                 Online.d_winner := None;
                 Online.d_players := Some {| Online.pwhite := Some (Online.clientId h);
                                             Online.pblack := None |} |}).
  assert (Hc1 : snd (Online.createGame h c) =
            [Online.LSave {| Online.l_code := c; Online.l_role := white;
                             Online.l_clientId := Online.clientId h |};
             Online.RSet (Online.path_of c) doc; Online.Subscribe (Online.path_of c)])
    by (unfold Online.createGame; rewrite Hh; reflexivity).
  assert (Hh1 : Online.role (fst (Online.createGame h c)) = Some white)
    by (unfold Online.createGame; rewrite Hh; unfold Online.orientForRole; simpl;
        destruct (Online.isReversed h); reflexivity).
  exists doc. split; [rewrite Hc1; simpl; auto|].
  assert (Hih' : String.eqb (Online.clientId h) "" = false) by (apply String.eqb_neq; exact Hih).
  assert (Htw : Online.taken (Some (Online.clientId h)) = true)
    by (simpl; rewrite Hih'; reflexivity).
  assert (Hec : String.eqb (Online.code j) "" = false)
    by (apply String.eqb_neq; congruence).
  set (patch := {| Online.p_fen := None; Online.p_pgn := None; Online.p_turn := None;
                   Online.p_status := Some Online.live; Online.p_winner := None;
                   Online.p_players := Some {| Online.pwhite := Some (Online.clientId h);
                                               Online.pblack := Some (Online.clientId j) |} |}).
  assert (Hj2 : In (Online.RUpdate (Online.path_of c) patch) (snd (Online.joinGame j (Some doc))))
    by (unfold Online.joinGame; rewrite Hj, Hec; simpl; rewrite Hih'; simpl;
        rewrite Hjc; simpl; auto).
  assert (Hj1 : Online.role (fst (Online.joinGame j (Some doc))) = Some black)
    by (unfold Online.joinGame; rewrite Hj, Hec; simpl; rewrite Hih'; simpl;
        unfold Online.orientForRole; simpl; reflexivity).
  exists patch. split; [exact Hj2|].
  assert (Htj : Online.taken (Some (Online.clientId j)) = true)
    by (simpl; apply String.eqb_neq in Hij; rewrite Hij; reflexivity).
  set (doc' := apply_patch doc patch).
  assert (Hpl : players_of doc' = {| Online.pwhite := Some (Online.clientId h);
                                     Online.pblack := Some (Online.clientId j) |})
    by reflexivity.
  assert (Hboth : Online.taken (Online.pwhite (players_of doc'))
                  && Online.taken (Online.pblack (players_of doc')) = true)
    by (rewrite Hpl; simpl in *; rewrite Htw, Htj; reflexivity).
  assert (Hf' : Online.d_fen doc' <> "") by exact Hfen.
  destruct (snapshot_facts (fst (Online.createGame h c)) doc') as (Ar & Arev & Amd).
  destruct (snapshot_facts (fst (Online.joinGame j (Some doc))) doc') as (Br & Brev & Bmd).
  split; [exact Hh1|]. split; [exact Hj1|]. split; [reflexivity|].
  split; [apply Amd; split; [exact Hboth|]; split;
           [left; split; [exact Hh1|reflexivity] | simpl; intros [H _]; discriminate H]|].
  split; [apply Bool.not_false_is_true; intros Hmd;
           apply Bmd in Hmd; destruct Hmd as (_ & [[H _]|[_ H]] & _); [rewrite Hj1 in H|]; discriminate H|].
  split; [rewrite (Arev Hf'), Hh1; reflexivity | rewrite (Brev Hf'), Hj1; reflexivity].
Qed.

End OnlineExtra.

Lemma lookup_remove_other (k k' : string) (l : list (string * string)) :
  k' <> k -> Storage.lookup k' (Storage.remove k l) = Storage.lookup k' l.
Proof.
  intros Hne. induction l as [|[k1 v] l IH]; simpl; [reflexivity|].
  destruct (String.eqb k k1) eqn:Hk; simpl.
  - apply String.eqb_eq in Hk; subst k1.
    apply String.eqb_neq in Hne. rewrite Hne. exact IH.
  - rewrite IH. reflexivity.
Qed.

Section StorageExtra.
Context {T : Type}.
Variable stringify : T -> string.
Variable parse : string -> option T.

(** [save] and [clear] under one key never change what another key
    holds; with storage access denied, the service swallows the errors:
    [save] and [clear] leave storage as it was and [load] returns null. *)
Theorem storage_ops_isolate_keys :
  forall (ls : Storage.LocalStorage) (key : string) (x : T),
    (forall k', k' <> key ->
       Storage.getItem (Storage.save stringify ls key x) k' = Storage.getItem ls k' /\
       Storage.getItem (Storage.clear ls key) k' = Storage.getItem ls k') /\
    (Storage.enabled ls = false ->
       Storage.save stringify ls key x = ls /\ Storage.clear ls key = ls /\
       Storage.load parse ls key = None).
Proof.
  intros [en q it] key x.
  split; [intros k' Hk'|].
  - pose proof Hk' as Hk. apply String.eqb_neq in Hk.
    unfold Storage.save, Storage.clear, Storage.setItem, Storage.removeItem, Storage.getItem.
    simpl. destruct en; [|split; reflexivity].
    destruct (Nat.leb _ q); simpl; rewrite ?Hk, ?lookup_remove_other by exact Hk'; split; reflexivity.
  - simpl. intros ->. repeat split.
Qed.

End StorageExtra.

Section HostRestore.
Context `{E : Engine}.

(** [ngAfterViewInit]'s restore step, on the session [storage.load()]
    returned ([saved?.fen], [None] for no session); a rejected fen leaves
    the new game in place. *)
Definition ngAfterViewInit (h : Host.Host) (saved : option string) : Host.Host :=
  match saved with
  | Some fen =>
      if String.eqb fen "" then h else
      match load fen with Some p => Host.set_chess h p | None => h end
  | None => h
  end.

Lemma postTo_no_storage (t : option Win) (m : WireMessage) (x : Host.Effect) :
  In x (Host.postTo t m) -> exists t' , x = Host.PostTo t' m.
Proof. destruct t; simpl; intros H; [destruct H as [<-|[]]; eauto | contradiction]. Qed.

Lemma postToBoth_no_storage (h : Host.Host) (m : WireMessage) (x : Host.Effect) :
  In x (Host.postToBoth h m) -> exists t', x = Host.PostTo t' m.
Proof.
  unfold Host.postToBoth. intros H. apply in_app_or in H.
  destruct H as [H|H]; eapply postTo_no_storage; exact H.
Qed.

(** The host's message handler never clears the saved game, and the only
    position it saves is one the engine accepted and the host adopted:
    reloading the page from that save (into any host) restores the same
    position. *)
Theorem host_saves_only_adopted_position :
  forall (h : Host.Host) (ev : MsgEvent),
    let res := Host.onMessage h ev in
    ~ In Host.Clear (snd res) /\
    (forall fen, In (Host.Save fen) (snd res) ->
       load fen = Some (Host.chess (fst res)) /\
       (fen <> "" -> forall h0, Host.chess (ngAfterViewInit h0 (Some fen)) = Host.chess (fst res))).
Proof.
  intros h ev. cbv zeta.
  unfold Host.onMessage.
  destruct (negb (String.eqb (ev_origin ev) (Host.origin h))); [simpl; split; [tauto|contradiction]|].
  destruct (ev_source ev) as [src|]; [|simpl; split; [tauto|contradiction]].
  destruct (ev_data ev) as [m|]; [|simpl; split; [tauto|contradiction]].
  destruct m; simpl; try (split; [tauto|contradiction]).
  1, 2: split; [intros Hin|intros fen Hin; exfalso];
      repeat (destruct Hin as [Hin|Hin]; [discriminate Hin|]);
      destruct (postToBoth_no_storage _ _ _ Hin) as [t Ht]; discriminate Ht.
  - destruct (negb (Host.win_eqb src (Host.currentTurnWindow h))); [simpl; split; [tauto|contradiction]|].
    destruct (load fen) as [p|] eqn:Hl; [|simpl; split; [tauto|contradiction]].
    destruct (isCheckmate p); simpl.
    + split.
      * intros [Hc|Hin]; [discriminate Hc|].
        destruct (postToBoth_no_storage _ _ _ Hin) as [t Ht]; discriminate Ht.
      * intros fen' [Hs|Hin].
        -- injection Hs as <-. split; [exact Hl|]. intros Hne h0. unfold ngAfterViewInit.
           apply String.eqb_neq in Hne. rewrite Hne, Hl. reflexivity.
        -- destruct (postToBoth_no_storage _ _ _ Hin) as [t Ht]; discriminate Ht.
    + split.
      * intros [Hc|Hin]; [discriminate Hc|].
        apply in_app_or in Hin; destruct Hin as [Hin|Hin];
          [destruct (postTo_no_storage _ _ _ Hin) as [t Ht]
          |destruct (postToBoth_no_storage _ _ _ Hin) as [t Ht]]; discriminate Ht.
      * intros fen' [Hs|Hin].
        -- injection Hs as <-. split; [exact Hl|]. intros Hne h0. unfold ngAfterViewInit.
           apply String.eqb_neq in Hne. rewrite Hne, Hl. reflexivity.
        -- exfalso. apply in_app_or in Hin; destruct Hin as [Hin|Hin];
             [destruct (postTo_no_storage _ _ _ Hin) as [t Ht]
             |destruct (postToBoth_no_storage _ _ _ Hin) as [t Ht]]; discriminate Ht.
Qed.

End HostRestore.

(** ** Instances on the sample engine *)

Definition sample_origin : string := "http://localhost:4200".

Lemma host_move_mirrors_to_other_window_witness :
  let r := @Host.onMessage Sample.engine (host0 Sample.START)
             (board_update_event (Host.origin (host0 Sample.START)) 1 Sample.AFTER_E4) in
  Host.chess (fst r) = Sample.AFTER_E4 /\
  snd r = [Host.Save Sample.AFTER_E4;
           Host.PostTo (if Nat.eqb 1 1 then 2 else 1) (SYNC_STATE Sample.AFTER_E4 None);
           Host.PostTo 1 (TURN (@turn Sample.engine Sample.AFTER_E4));
           Host.PostTo 2 (TURN (@turn Sample.engine Sample.AFTER_E4))] /\
  ~ In (Host.PostTo 1 (SYNC_STATE Sample.AFTER_E4 None)) (snd r).
Proof.
  apply (@host_move_mirrors_to_other_window Sample.engine (host0 Sample.START) 1
           Sample.AFTER_E4 Sample.AFTER_E4 1 2);
    try (vm_compute; reflexivity); discriminate.
Defined.


Lemma host_only_board_update_changes_state_witness :
  let ev := {| ev_origin := sample_origin; ev_source := Some 2; ev_data := Some IFRAME_READY |} in
  Host.chess (fst (@Host.onMessage Sample.engine (host0 Sample.START) ev)) = Host.chess (host0 Sample.START) /\
  Forall (fun x => match x with Host.PostTo _ _ => True | _ => False end)
         (snd (@Host.onMessage Sample.engine (host0 Sample.START) ev)).
Proof.
  apply (@host_only_board_update_changes_state Sample.engine).
  intros fen. simpl. discriminate.
Defined.

Lemma new_game_resets_both_boards_witness :
  let r := @Host.newGame Sample.engine (host0 Sample.AFTER_E4) in
  Host.chess (fst r) = @new_chess Sample.engine /\ Host.overlayVisible (fst r) = false /\
  hd_error (snd r) = Some Host.Clear /\
  (forall (e : Embed.Embed) (rl : Role) (me : Win),
     (me = 1 \/ me = 2) -> Embed.role e = Some rl -> Embed.origin e = Host.origin (host0 Sample.AFTER_E4) ->
     let e' := deliver e me (Host.origin (host0 Sample.AFTER_E4)) (snd r) in
     Board.bfen (Embed.board e') = @fen_of Sample.engine (@new_chess Sample.engine) /\
     Board.breversed (Embed.board e') = role_eqb rl black /\
     Embed.moveDisabled e' = negb (role_eqb rl white) /\
     Embed.applyingRemote e' = false).
Proof.
  apply (@new_game_resets_both_boards Sample.engine (host0 Sample.AFTER_E4) 1 2);
    try (vm_compute; reflexivity); discriminate.
Defined.



(** A second browser ("client-d") that has typed the same room code. *)
Definition online_joiner : @Online.Online Sample.engine :=
  Online.set_clientId online_fresh "client-d".

Lemma create_join_handshake_witness :
  let h1 := fst (@Online.createGame Sample.engine online_fresh "ABC123") in
  exists doc,
    In (Online.RSet (Online.path_of "ABC123") doc)
       (snd (@Online.createGame Sample.engine online_fresh "ABC123")) /\
    let j1 := fst (@Online.joinGame Sample.engine online_joiner (Some doc)) in
    exists patch,
      In (Online.RUpdate (Online.path_of "ABC123") patch)
         (snd (@Online.joinGame Sample.engine online_joiner (Some doc))) /\
      let doc' := apply_patch doc patch in
      Online.role h1 = Some white /\ Online.role j1 = Some black /\
      Online.d_status doc' = Some Online.live /\
      Online.moveDisabled (fst (@Online.onSnapshot Sample.engine h1 (Some doc'))) = false /\
      Online.moveDisabled (fst (@Online.onSnapshot Sample.engine j1 (Some doc'))) = true /\
      Board.breversed (Online.board (fst (@Online.onSnapshot Sample.engine h1 (Some doc')))) = false /\
      Board.breversed (Online.board (fst (@Online.onSnapshot Sample.engine j1 (Some doc')))) = true.
Proof.
  apply (@create_join_handshake Sample.engine online_fresh online_joiner "ABC123");
    try reflexivity; vm_compute; discriminate.
Defined.
